(** * reegis_tools.scenario_tools: the node dictionary and the scenario class

    A shallow embedding of [src/reegis_tools/scenario_tools.py].  Python
    objects that the module only passes around (solph nodes, models, pandas
    time stamps) stay abstract; what the module itself computes -- the
    duplicate check of [NodeDict], the number of time steps, the scan for
    missing values, the order of the calls in [add_nodes] and [solve] -- is
    written out. *)

From Stdlib Require Import String Ascii ZArith List Bool Lia DecimalString.
Import ListNotations.

Local Open Scope string_scope.
Local Open Scope Z_scope.

(** ** Exceptions and results *)

(** The exception classes the module raises or lets through.  [OtherError]
    stands for whatever a collaborator (pandas, solph, the solver, the file
    system) raises on its own. *)
Inductive exn : Type :=
| KeyError (msg : string)
| TypeError (msg : string)
| ValueError (msg : string)
| AttributeError (msg : string)
| OtherError (msg : string).

Inductive result (A : Type) : Type :=
| Ok (a : A)
| Raise (e : exn).

Arguments Ok {A} a.
Arguments Raise {A} e.

Definition bind {A B : Type} (r : result A) (k : A -> result B) : result B :=
  match r with
  | Ok a => k a
  | Raise e => Raise e
  end.

Declare Scope py_scope.
Delimit Scope py_scope with py.
Notation "x <- c ;; k" := (bind c (fun x => k))
  (at level 61, c at next level, right associativity) : py_scope.
Notation "c ;;; k" := (bind c (fun _ => k))
  (at level 61, right associativity) : py_scope.

(** ** Plain Python data: the values of [year], [debug] and [location] *)

Inductive pyval : Type :=
| PyNone
| PyBool (b : bool)
| PyInt (z : Z)
| PyStr (s : string).

(** [str(int)]: decimal digits, a leading minus sign for negatives. *)
Definition str_int (z : Z) : string := NilZero.string_of_int (Z.to_int z).

(** [str(x)], which is what ['{0}'.format(x)] inserts. *)
Definition py_str (v : pyval) : string :=
  match v with
  | PyNone => "None"
  | PyBool true => "True"
  | PyBool false => "False"
  | PyInt z => str_int z
  | PyStr s => s
  end.

(** [x is True]: identity with the singleton [True]; [1] is not [True]. *)
Definition is_True (v : pyval) : bool :=
  match v with
  | PyBool true => true
  | _ => false
  end.

(** [if x:], the truth value of [x]. *)
Definition truthy (v : pyval) : bool :=
  match v with
  | PyNone => false
  | PyBool b => b
  | PyInt z => negb (z =? 0)
  | PyStr s => negb (String.eqb s "")
  end.

(** ** Python dictionaries with string keys

    A [dict] keeps its entries in insertion order ([values()] is handed to
    [es.add] in that order), and assigning to a key that is present replaces
    the value in place. *)
Module PyDict.
Section Dict.
Context {V : Type}.

Definition t : Type := list (string * V).

Definition empty : t := [].

Fixpoint lookup (d : t) (k : string) : option V :=
  match d with
  | [] => None
  | (k', v) :: d' => if String.eqb k' k then Some v else lookup d' k
  end.

(** [dict.__setitem__] *)
Fixpoint store (d : t) (k : string) (v : V) : t :=
  match d with
  | [] => [(k, v)]
  | (k', v') :: d' =>
      if String.eqb k' k then (k', v) :: d' else (k', v') :: store d' k v
  end.

(** [d[k]]: a [KeyError] carrying the key when it is absent. *)
Definition getitem (d : t) (k : string) : result V :=
  match lookup d k with
  | Some v => Ok v
  | None => Raise (KeyError k)
  end.

Definition keys (d : t) : list string := map fst d.
Definition values (d : t) : list V := map snd d.
Definition items (d : t) : list (string * V) := d.

End Dict.
Arguments t V : clear implicits.
End PyDict.

(** ** [class NodeDict(dict)] *)
Module NodeDict.
Section Registry.
(** The node objects of the external framework; opaque here. *)
Variable Node : Type.

(** What can be assigned to a key: a node, or Python's [None]. *)
Inductive item : Type :=
| ItemNone
| ItemNode (n : Node).

Definition t : Type := PyDict.t item.

(** [dict.get(key)]: the stored value, [None] when the key is absent. *)
Definition get (self : t) (key : string) : item :=
  match PyDict.lookup self key with
  | Some v => v
  | None => ItemNone
  end.

Definition duplicate_msg (key : string) : string :=
  ("Key '" ++ key ++ "' already exists. ")
    ++ "Duplicate keys are not allowed in a node dictionary.".

(** [NodeDict.__setitem__] *)
Definition __setitem__ (self : t) (key : string) (v : item) : result t :=
  match get self key with
  | ItemNone => Ok (PyDict.store self key v)
  | ItemNode _ => Raise (KeyError (duplicate_msg key))
  end.
End Registry.
Arguments ItemNone {Node}.
Arguments ItemNode {Node} n.
Arguments get {Node} self key.
Arguments __setitem__ {Node} self key v.
End NodeDict.

(** ** [calendar.isleap]

    [year % 4 == 0 and (year % 100 != 0 or year % 400 == 0)], evaluated on
    whatever object [self.year] holds. *)
Module Calendar.
Section Isleap.
(** [s % n] on a string is printf-style formatting.  A string without any
    conversion specification rejects the argument with a [TypeError]; what
    a string with a [%] in it does is left to the interpreter. *)
Variable str_percent : string -> Z -> result string.

Fixpoint has_percent (s : string) : bool :=
  match s with
  | EmptyString => false
  | String c s' => Ascii.eqb c "%"%char || has_percent s'
  end.

Definition int_of_bool (b : bool) : Z := if b then 1 else 0.

(** [x % n] for a positive literal [n]; on integers Python's [%] takes the
    sign of the divisor, as [Z.modulo] does. *)
Definition py_mod (x : pyval) (n : Z) : result pyval :=
  match x with
  | PyInt z => Ok (PyInt (z mod n))
  | PyBool b => Ok (PyInt (int_of_bool b mod n))
  | PyNone =>
      Raise (TypeError "unsupported operand type(s) for %: 'NoneType' and 'int'")
  | PyStr s =>
      if has_percent s
      then bind (str_percent s n) (fun r => Ok (PyStr r))
      else Raise (TypeError "not all arguments converted during string formatting")
  end.

(** [x == n] for an integer literal [n]. *)
Definition py_eq_int (x : pyval) (n : Z) : bool :=
  match x with
  | PyInt z => z =? n
  | PyBool b => int_of_bool b =? n
  | _ => false
  end.

Definition isleap (year : pyval) : result bool :=
  (r4 <- py_mod year 4 ;;
   if py_eq_int r4 0 then
     r100 <- py_mod year 100 ;;
     if negb (py_eq_int r100 0) then Ok true
     else r400 <- py_mod year 400 ;; Ok (py_eq_int r400 0)
   else Ok false)%py.
End Isleap.
End Calendar.

(** ** The objects of the external framework *)

(** The types the module never looks into. *)
Class Framework : Type := {
  Node : Type;          (* solph nodes: buses, sources, sinks, ... *)
  Model : Type;         (* solph.Model *)
  Timestamp : Type;     (* the entries of a pandas DatetimeIndex *)
  Results : Type;       (* outputlib.processing.results *)
  Params : Type;        (* outputlib.processing.parameter_as_dict *)
  Datetime : Type;      (* datetime.datetime *)
  Opaque : Type         (* anything else a collaborator stores *)
}.

Section Objects.
Context {F : Framework}.

(** The entries of the [meta] dictionary. *)
Inductive metaval : Type :=
| MetaLocation (l : option string)
| MetaDate (d : Datetime)
| MetaStr (s : string)
| MetaOther (o : Opaque).

(** [Scenario.scenario_info]'s dictionary. *)
Record sc_info : Type := {
  info_name : string;
  info_datetime : Datetime;
  info_year : pyval
}.

(** What [es.results] holds under its keys. *)
Inductive facet : Type :=
| FResults (r : Results)
| FMeta (m : PyDict.t metaval)
| FParam (p : Params)
| FInfo (i : sc_info)
| FOther (o : Opaque).

(** [solph.EnergySystem]: the attributes the module reads or writes.
    [es_results] is [None] until something assigns it. *)
Record EnergySystem : Type := {
  timeindex : list Timestamp;
  entities : list (NodeDict.item Node);
  es_results : option (PyDict.t facet)
}.

(** [solph.EnergySystem(timeindex=idx)] *)
Definition EnergySystem_new (idx : list Timestamp) : EnergySystem :=
  {| timeindex := idx; entities := []; es_results := None |}.

Definition set_es_results (e : EnergySystem) (r : PyDict.t facet)
  : EnergySystem :=
  {| timeindex := timeindex e; entities := entities e;
     es_results := Some r |}.
End Objects.

(** ** pandas data frames *)
Module Frame.
Section Frame.
(** Column labels (strings, or tuples under a two-level header) and the
    values of the cells. *)
Variable label : Type.
Variable label_eqb : label -> label -> bool.
Variable value : Type.

(** A cell: a value, or missing (NaN / None / NaT). *)
Definition cell : Type := option value.

(** The columns in their order, each with its cells.  pandas allows a
    label to occur more than once. *)
Definition DataFrame : Type := list (label * list cell).

Definition columns (df : DataFrame) : list label := map fst df.

Definition isnull (c : cell) : bool :=
  match c with
  | None => true
  | Some _ => false
  end.

(** [series.isnull().any()] *)
Definition series_isnull_any (cells : list cell) : bool :=
  existsb isnull cells.

(** [df.isnull().values.any()] *)
Definition isnull_values_any (df : DataFrame) : bool :=
  existsb (fun col => series_isnull_any (snd col)) df.

(** [df[column]]: every column that carries the label. *)
Definition select (df : DataFrame) (column : label) : DataFrame :=
  filter (fun col => label_eqb (fst col) column) df.

Definition ambiguous_msg : string :=
  "The truth value of a Series is ambiguous. Use a.empty, a.bool(), a.item(), a.any() or a.all().".

(** The condition [if df[column].isnull().any():].  With one column under
    the label, [df[column]] is a Series and [.any()] a boolean.  With
    several, [df[column]] is a frame, [.any()] a Series with one entry per
    column, and taking its truth value raises. *)
Definition column_isnull_any (repr : label -> string) (df : DataFrame)
    (column : label) : result bool :=
  match select df column with
  | [] => Raise (KeyError (repr column))
  | [(_, cells)] => Ok (series_isnull_any cells)
  | _ :: _ :: _ => Raise (ValueError ambiguous_msg)
  end.
End Frame.
Arguments cell value : clear implicits.
Arguments DataFrame label value : clear implicits.
Arguments columns {label value} df.
Arguments isnull {value} c.
Arguments series_isnull_any {value} cells.
Arguments isnull_values_any {label value} df.
Arguments select {label} label_eqb {value} df column.
Arguments column_isnull_any {label} label_eqb {value} repr df column.
End Frame.

(** ** The collaborators

    Everything the module calls but does not define: pandas, solph, the
    oemof helpers, the configuration, the clock and the file system.  Each
    call either returns or raises. *)

(** The labels and cell values of the scenario tables. *)
Class Tables : Type := {
  Label : Type;
  label_eq_dec : forall a b : Label, {a = b} + {a <> b};
  repr_label : Label -> string;     (* Python's [repr] of a label *)
  Value : Type
}.

Definition label_eqb {T : Tables} (a b : Label) : bool :=
  if label_eq_dec a b then true else false.

Class Externals {F : Framework} : Type := {
  (** [pd.date_range(start, periods=n, freq=f)]; when it returns, the index
      has [n] entries. *)
  date_range : string -> Z -> string -> result (list Timestamp);
  date_range_periods :
    forall start n freq idx,
      date_range start n freq = Ok idx -> Z.of_nat (length idx) = n;
  (** printf-style [s % n] for a string [s] that contains a [%]. *)
  str_percent : string -> Z -> result string;
  (** [es.add] applied to the nodes *)
  es_add : EnergySystem -> list (NodeDict.item Node) -> result EnergySystem;
  (** [cfg.get(section, key)] *)
  cfg_get : string -> string -> result string;
  (** [model.receive_duals()] *)
  receive_duals : Model -> result Model;
  (** [helpers.extend_basic_path(subfolder)] and [os.path.join] *)
  extend_basic_path : string -> result string;
  path_join : string -> string -> string;
  (** [model.write(filename, io_options=...)] *)
  model_write : Model -> string -> result Model;
  (** [model.solve(solver=name, solve_kwargs=...)]: the model afterwards,
      and the scenario's energy system afterwards (the model was built on
      it and the solver may assign its [results]). *)
  model_solve :
    Model -> string -> option EnergySystem ->
    result (Model * option EnergySystem);
  (** [outputlib.processing] *)
  processing_results : Model -> result Results;
  processing_meta_results : Model -> result (PyDict.t metaval);
  processing_parameter_as_dict : option EnergySystem -> result Params;
  (** [datetime.datetime.now()] *)
  datetime_now : Datetime;
  (** [datetime.datetime.fromtimestamp(os.path.getmtime(path))] *)
  file_date : string -> result Datetime;
  (** [logger.get_version()] *)
  get_version : result string
}.

Declare Scope method_scope.
Delimit Scope method_scope with method.

(** ** [class Scenario] *)
Module Scenario.
Section Scenario.
Context {F : Framework} {T : Tables} {X : Externals}.

Record t : Type := {
  name : string;
  table_collection : PyDict.t (Frame.DataFrame Label Value);
  year : pyval;
  ignore_errors : bool;
  round_values : Z;
  model : option Model;
  es : option EnergySystem;
  results : option facet;
  debug : pyval;
  location : option string
}.

(** The keyword arguments of the constructor; [None] for one not given. *)
Record kwargs : Type := {
  kw_name : option string;
  kw_table_collection : option (PyDict.t (Frame.DataFrame Label Value));
  kw_year : option pyval;
  kw_ignore_errors : option bool;
  kw_round_values : option Z;
  kw_model : option Model;
  kw_es : option EnergySystem;
  kw_debug : option pyval
}.

(** [kwargs.get(key, default)] *)
Definition kwargs_get {A : Type} (given : option A) (default : A) : A :=
  match given with
  | Some a => a
  | None => default
  end.

Definition __init__ (kw : kwargs) : t :=
  {| name := kwargs_get (kw_name kw) "unnamed_scenario";
     table_collection := kwargs_get (kw_table_collection kw) PyDict.empty;
     year := kwargs_get (kw_year kw) PyNone;
     ignore_errors := kwargs_get (kw_ignore_errors kw) false;
     round_values := kwargs_get (kw_round_values kw) 0;
     model := kw_model kw;
     es := kw_es kw;
     results := None;
     debug := kwargs_get (kw_debug kw) PyNone;
     location := None |}.

Definition set_year (self : t) (y : pyval) : t :=
  {| name := name self; table_collection := table_collection self;
     year := y; ignore_errors := ignore_errors self;
     round_values := round_values self; model := model self;
     es := es self; results := results self; debug := debug self;
     location := location self |}.

Definition set_model (self : t) (m : option Model) : t :=
  {| name := name self; table_collection := table_collection self;
     year := year self; ignore_errors := ignore_errors self;
     round_values := round_values self; model := m;
     es := es self; results := results self; debug := debug self;
     location := location self |}.

Definition set_es (self : t) (e : option EnergySystem) : t :=
  {| name := name self; table_collection := table_collection self;
     year := year self; ignore_errors := ignore_errors self;
     round_values := round_values self; model := model self;
     es := e; results := results self; debug := debug self;
     location := location self |}.

Definition set_results (self : t) (r : option facet) : t :=
  {| name := name self; table_collection := table_collection self;
     year := year self; ignore_errors := ignore_errors self;
     round_values := round_values self; model := model self;
     es := es self; results := r; debug := debug self;
     location := location self |}.

(** *** Methods

    A method runs on the scenario object and leaves it changed, also when
    it raises. *)
Definition M (A : Type) : Type := t -> t * result A.

Definition mret {A : Type} (a : A) : M A := fun self => (self, Ok a).

Definition mraise {A : Type} (e : exn) : M A := fun self => (self, Raise e).

Definition mbind {A B : Type} (c : M A) (k : A -> M B) : M B :=
  fun self =>
    match c self with
    | (self', Ok a) => k a self'
    | (self', Raise e) => (self', Raise e)
    end.

Definition lift {A : Type} (r : result A) : M A := fun self => (self, r).

Definition this : M t := fun self => (self, Ok self).

Definition assign (f : t -> t) : M unit := fun self => (f self, Ok tt).

Notation "x <- c ;; k" := (mbind c (fun x => k))
  (at level 61, c at next level, right associativity) : method_scope.
Notation "c ;;; k" := (mbind c (fun _ => k))
  (at level 61, right associativity) : method_scope.

(** *** [initialise_energy_system] *)

Definition year_error_msg (y : pyval) : string :=
  "You cannot create an EnergySystem with self.year = " ++ py_str y.

(** The local variable [number_of_time_steps]; only a [TypeError] of
    [calendar.isleap] is caught and replaced. *)
Definition number_of_time_steps (self : t) : result Z :=
  if is_True (debug self) then Ok 3
  else
    match Calendar.isleap str_percent (year self) with
    | Ok true => Ok 8784
    | Ok false => Ok 8760
    | Raise (TypeError _) => Raise (TypeError (year_error_msg (year self)))
    | Raise e => Raise e
    end.

Definition initialise_energy_system (self : t) : result EnergySystem :=
  (n <- number_of_time_steps self ;;
   date_time_index <- date_range ("1/1/" ++ py_str (year self)) n "H" ;;
   Ok (EnergySystem_new date_time_index))%py.

(** *** [check_table] *)

(** [str(list)]: the [repr] of the elements between brackets. *)
Definition py_list_str (l : list string) : string :=
  "[" ++ String.concat ", " l ++ "]".

Definition nan_msg (table_name : string) (c : list Label) : string :=
  "Nan Values in the " ++ table_name ++ " table (columns: "
    ++ py_list_str (map repr_label c) ++ ").".

(** The loop over [df.columns], appending to [c]. *)
Fixpoint null_columns (df : Frame.DataFrame Label Value)
    (cols : list Label) (c : list Label) : result (list Label) :=
  match cols with
  | [] => Ok c
  | column :: rest =>
      (b <- Frame.column_isnull_any label_eqb repr_label df column ;;
       null_columns df rest (if b then (c ++ [column])%list else c))%py
  end.

Definition check_table (self : t) (table_name : string) : result unit :=
  (df <- PyDict.getitem (table_collection self) table_name ;;
   if Frame.isnull_values_any df then
     c <- null_columns df (Frame.columns df) [] ;;
     Raise (ValueError (nan_msg table_name c))
   else Ok tt)%py.

(** *** [initialise_es] and [add_nodes] *)

(** [year] is the keyword argument, [None] by default. *)
Definition initialise_es (year' : pyval) : M unit :=
  ((match year' with
    | PyNone => mret tt
    | _ => assign (fun self => set_year self year')
    end) ;;;
   self <- this ;;
   e <- lift (initialise_energy_system self) ;;
   assign (fun self => set_es self (Some e)))%method.

Definition add_nodes (nodes : NodeDict.t Node) : M unit :=
  (self <- this ;;
   (match es self with
    | None => initialise_es PyNone
    | Some _ => mret tt
    end) ;;;
   self <- this ;;
   match es self with
   | None => mraise (AttributeError "'NoneType' object has no attribute 'add'")
   | Some e =>
       e' <- lift (es_add e (PyDict.values nodes)) ;;
       assign (fun self => set_es self (Some e'))
   end)%method.

(** *** [scenario_info] and [solve] *)

Definition scenario_info (self : t) : sc_info :=
  {| info_name := name self; info_datetime := datetime_now;
     info_year := year self |}.

(** [self.model], about to have [attr] looked up on it. *)
Definition the_model (attr : string) : M Model :=
  (self <- this ;;
   match model self with
   | Some m => mret m
   | None =>
       mraise (AttributeError
                 ("'NoneType' object has no attribute '" ++ attr ++ "'"))
   end)%method.

(** [self.es.results] *)
Definition the_results : M (option (PyDict.t facet)) :=
  (self <- this ;;
   match es self with
   | Some e => mret (es_results e)
   | None =>
       mraise (AttributeError "'NoneType' object has no attribute 'results'")
   end)%method.

(** [self.es.results[key] = v] *)
Definition results_setitem (key : string) (v : facet) : M unit :=
  (r <- the_results ;;
   match r with
   | Some d =>
       assign (fun self =>
                 match es self with
                 | Some e =>
                     set_es self
                       (Some (set_es_results e (PyDict.store d key v)))
                 | None => self
                 end)
   | None =>
       mraise (TypeError "'NoneType' object does not support item assignment")
   end)%method.

(** [self.es.results[key]] *)
Definition results_getitem (key : string) : M facet :=
  (r <- the_results ;;
   match r with
   | Some d => lift (PyDict.getitem d key)
   | None => mraise (TypeError "'NoneType' object is not subscriptable")
   end)%method.

(** [self.es.results['meta'][key] = v]: the dictionary stored under
    ['meta'] is updated in place. *)
Definition meta_setitem (key : string) (v : metaval) : M unit :=
  (f <- results_getitem "meta" ;;
   match f with
   | FMeta m => results_setitem "meta" (FMeta (PyDict.store m key v))
   | _ => mraise (TypeError "object does not support item assignment")
   end)%method.

Definition solve (with_duals : bool) : M unit :=
  (solver_name <- lift (cfg_get "general" "solver") ;;
   (if with_duals then
      m <- the_model "receive_duals" ;;
      m' <- lift (receive_duals m) ;;
      assign (fun self => set_model self (Some m'))
    else mret tt) ;;;
   self <- this ;;
   (if truthy (debug self) then
      base <- lift (extend_basic_path "lp_files") ;;
      m <- the_model "write" ;;
      m' <- lift (model_write m (path_join base "berlin.lp")) ;;
      assign (fun self => set_model self (Some m'))
    else mret tt) ;;;
   m <- the_model "solve" ;;
   self <- this ;;
   solved <- lift (model_solve m solver_name (es self)) ;;
   assign (fun self => set_es (set_model self (Some (fst solved)))
                         (snd solved)) ;;;
   main <- lift (processing_results (fst solved)) ;;
   results_setitem "main" (FResults main) ;;;
   meta <- lift (processing_meta_results (fst solved)) ;;
   results_setitem "meta" (FMeta meta) ;;;
   self <- this ;;
   param <- lift (processing_parameter_as_dict (es self)) ;;
   results_setitem "param" (FParam param) ;;;
   self <- this ;;
   results_setitem "scenario" (FInfo (scenario_info self)) ;;;
   self <- this ;;
   meta_setitem "in_location" (MetaLocation (location self)) ;;;
   self <- this ;;
   date <- (match location self with
            | Some path => lift (file_date path)
            | None =>
                mraise (TypeError
                  "stat: path should be string, bytes, os.PathLike or integer, not NoneType")
            end) ;;
   meta_setitem "file_date" (MetaDate date) ;;;
   version <- lift get_version ;;
   meta_setitem "oemof_version" (MetaStr version) ;;;
   main' <- results_getitem "main" ;;
   assign (fun self => set_results self (Some main')))%method.
End Scenario.
Arguments t {F T}.
End Scenario.

(** ** The file names of a csv-collection

    The part of [to_csv] and [load_csv] that is not pandas or the file
    system: how a table name becomes a file name and back. *)
Module CsvNames.
(** [name.replace(' ', '_')] *)
Fixpoint replace_space (name : string) : string :=
  match name with
  | EmptyString => EmptyString
  | String c rest =>
      String (if Ascii.eqb c " "%char then "_"%char else c) (replace_space rest)
  end.

(** [to_csv]: [name.replace(' ', '_') + '.csv'] *)
Definition file_name (name : string) : string := replace_space name ++ ".csv".

(** [file[-4:]]: the last four characters, the whole string when shorter. *)
Definition last4 (file : string) : string :=
  substring (String.length file - 4) 4 file.

(** [file[:-4]]: all but the last four characters. *)
Definition drop_last4 (file : string) : string :=
  substring 0 (String.length file - 4) file.

(** [load_csv]: the table name under which [file] is loaded, if it is. *)
Definition table_name (file : string) : option string :=
  if String.eqb (last4 file) ".csv" then Some (drop_last4 file) else None.
End CsvNames.

(** ** The vocabulary of the specification *)

(** What the specification asks of two registrations under one key. *)
Definition first_write_wins {Node : Type} (k : string)
    (v1 v2 : NodeDict.item Node) : Prop :=
  exists d1,
    NodeDict.__setitem__ PyDict.empty k v1 = Ok d1 /\
    (exists msg, NodeDict.__setitem__ d1 k v2 = Raise (KeyError msg)) /\
    PyDict.getitem d1 k = Ok v1.

(** The Gregorian rule. *)
Definition leap_year (y : Z) : Prop :=
  y mod 4 = 0 /\ (y mod 100 <> 0 \/ y mod 400 = 0).

Section Vocabulary.
Context {F : Framework} {T : Tables} {X : Externals}.

(** Initialising the energy system of [self] asks pandas for [n] hourly steps
    from the first of January of [self.year], and the energy system it
    returns carries exactly [n] steps. *)
Definition time_index_steps (self : Scenario.t) (n : Z) : Prop :=
  Scenario.initialise_energy_system self
  = bind (date_range ("1/1/" ++ py_str (Scenario.year self)) n "H")
      (fun idx => Ok (EnergySystem_new idx)) /\
  forall e, Scenario.initialise_energy_system self = Ok e ->
            Z.of_nat (length (timeindex e)) = n.

(** A table has a missing value when some cell of some column is missing. *)
Definition has_missing (df : Frame.DataFrame Label Value) : Prop :=
  exists column cells, In (column, cells) df /\ In None cells.

(** The labels of the columns that contain a missing value, in the order of
    the columns. *)
Definition missing_columns (df : Frame.DataFrame Label Value) : list Label :=
  map fst (filter (fun col => Frame.series_isnull_any (snd col)) df).

(** The completeness check on the table [df] stored under [table_name]: it
    fails exactly when the table has a missing value, the failure is the
    [ValueError] that names the table and lists the columns with a missing
    value, and without a missing value the check returns. *)
Definition completeness_check (self : Scenario.t) (table_name : string)
    (df : Frame.DataFrame Label Value) : Prop :=
  ((exists e, Scenario.check_table self table_name = Raise e)
   <-> has_missing df) /\
  (forall e, Scenario.check_table self table_name = Raise e ->
             e = ValueError (Scenario.nan_msg table_name (missing_columns df))) /\
  (~ has_missing df -> Scenario.check_table self table_name = Ok tt).


End Vocabulary.

(** ** A concrete set of collaborators

    Small stand-ins on which the methods can be run: nodes, models and
    results are numbers, a time index is the list of its hour offsets, the
    solver assigns an empty results dictionary to the energy system. *)
Module Demo.
#[export] Instance framework : Framework :=
  {| Node := nat; Model := nat; Timestamp := Z; Results := nat;
     Params := nat; Datetime := Z; Opaque := nat |}.

#[export] Instance tables : Tables :=
  {| Label := string; label_eq_dec := string_dec;
     repr_label := fun s => "'" ++ s ++ "'"; Value := Z |}.

(** [n] hourly steps, counted from the start. *)
Definition hourly (start : string) (n : Z) (freq : string)
  : result (list Z) :=
  if n <? 0
  then Raise (ValueError "Number of samples, must be non-negative.")
  else Ok (map Z.of_nat (seq 0 (Z.to_nat n))).

Definition hourly_periods (start : string) (n : Z) (freq : string) (idx : list Z) :
  hourly start n freq = Ok idx -> Z.of_nat (length idx) = n.
Proof.
  unfold hourly. destruct (n <? 0) eqn:E; [discriminate |].
  intros H. injection H as <-.
  rewrite length_map, length_seq. apply Z.ltb_ge in E. lia.
Defined.

Definition add (e : EnergySystem) (nodes : list (NodeDict.item nat))
  : result EnergySystem :=
  Ok {| timeindex := timeindex e; entities := entities e ++ nodes;
        es_results := es_results e |}.

Definition run_solver (m : nat) (solver : string) (e : option EnergySystem)
  : result (nat * option EnergySystem) :=
  Ok (S m, option_map (fun e' => set_es_results e' PyDict.empty) e).

#[export] Instance externals : Externals :=
  {| date_range := hourly;
     date_range_periods := hourly_periods;
     str_percent := fun _ _ => Raise (ValueError "incomplete format");
     es_add := add;
     cfg_get := fun _ _ => Ok "cbc";
     receive_duals := fun m => Ok m;
     extend_basic_path := fun sub => Ok ("/home/user/.oemof/" ++ sub);
     path_join := fun a b => a ++ "/" ++ b;
     model_write := fun m _ => Ok m;
     model_solve := run_solver;
     processing_results := fun m => Ok m;
     processing_meta_results := fun _ => Ok PyDict.empty;
     processing_parameter_as_dict := fun _ => Ok 0%nat;
     datetime_now := 0;
     file_date := fun _ => Ok 0;
     get_version := Ok "0.2.3" |}.

(** A scenario for the year [y] with the given [debug] value. *)
Definition scenario (y : pyval) (dbg : pyval) : Scenario.t :=
  Scenario.set_year
    {| Scenario.name := "demo"; Scenario.table_collection := PyDict.empty;
       Scenario.year := PyNone; Scenario.ignore_errors := false;
       Scenario.round_values := 0; Scenario.model := None;
       Scenario.es := None; Scenario.results := None;
       Scenario.debug := dbg; Scenario.location := None |} y.

(** The scenario whose table collection is [tables]. *)
Definition scenario_with_tables
    (tables : PyDict.t (Frame.DataFrame string Z)) : Scenario.t :=
  {| Scenario.name := "demo"; Scenario.table_collection := tables;
     Scenario.year := PyInt 2014; Scenario.ignore_errors := false;
     Scenario.round_values := 0; Scenario.model := None;
     Scenario.es := None; Scenario.results := None;
     Scenario.debug := PyNone; Scenario.location := None |}.

(** A table in which two columns carry the label ["a"]. *)
Definition twice_a : Frame.DataFrame string Z :=
  [("a", [Some 1; None]); ("a", [Some 2; Some 3])].

(** A table with distinct labels and a gap in two of its columns. *)
Definition gaps : Frame.DataFrame string Z :=
  [("a", [Some 1; None]); ("b", [Some 2; Some 3]); ("c", [None; None])].

(** The number of steps of the index that initialising [self] builds. *)
Definition steps_built (self : Scenario.t) : option Z :=
  match Scenario.initialise_energy_system self with
  | Ok e => Some (Z.of_nat (length (timeindex e)))
  | Raise _ => None
  end.

(** A scenario ready to be solved: loaded from a file, with an energy
    system and a model. *)
Definition ready : Scenario.t :=
  {| Scenario.name := "demo"; Scenario.table_collection := PyDict.empty;
     Scenario.year := PyInt 2014; Scenario.ignore_errors := false;
     Scenario.round_values := 0; Scenario.model := Some 0%nat;
     Scenario.es := Some (EnergySystem_new [0; 1; 2]);
     Scenario.results := None; Scenario.debug := PyBool true;
     Scenario.location := Some "scenarios/demo.xls" |}.

Definition solved : Scenario.t := fst (Scenario.solve false ready).

(** Two nodes to be added. *)
Definition two_nodes : NodeDict.t nat :=
  [("bus", NodeDict.ItemNode 1%nat); ("sink", NodeDict.ItemNode 2%nat)].
End Demo.

From Stdlib Require Import Sorting.Permutation Sorting.Sorted.

(** ** Filling a node dictionary

    [nodes[k1] = v1; nodes[k2] = v2; ...], one assignment after the other,
    as a [create_nodes] does it; the first assignment that raises ends the
    run. *)
Module Registration.
Fixpoint setitems {Node : Type} (nodes : NodeDict.t Node)
    (entries : list (string * NodeDict.item Node))
  : result (NodeDict.t Node) :=
  match entries with
  | [] => Ok nodes
  | (key, v) :: rest =>
      bind (NodeDict.__setitem__ nodes key v) (fun nodes' => setitems nodes' rest)
  end.

(** The entries that hold a node. *)
Definition node_entries {Node : Type} (l : list (string * Node))
  : list (string * NodeDict.item Node) :=
  map (fun kn => (fst kn, NodeDict.ItemNode (snd kn))) l.
End Registration.

(** ** More of [class Scenario]: [create_nodes] and [add_nodes2solph] *)
Module ScenarioNodes.
Import Scenario.
Section Nodes.
Context {F : Framework} {T : Tables} {X : Externals}.

Notation "x <- c ;; k" := (mbind c (fun x => k))
  (at level 61, c at next level, right associativity) : method_scope.
Notation "c ;;; k" := (mbind c (fun _ => k))
  (at level 61, right associativity) : method_scope.

(** [create_nodes] of the class itself: [pass], so the call returns [None].
    A scenario class of a model overrides it and returns its nodes. *)
Definition create_nodes : M (option (NodeDict.t Node)) := mret None.

(** [add_nodes2solph], with the [create_nodes] that [self] dispatches to.
    In [self.es.add( *nodes.values())] the attribute [add] is looked up
    before the argument is evaluated. *)
Definition add_nodes2solph (create_nodes : M (option (NodeDict.t Node)))
  : M unit :=
  (self <- this ;;
   (match es self with
    | None =>
        e <- lift (initialise_energy_system self) ;;
        assign (fun self => set_es self (Some e))
    | Some _ => mret tt
    end) ;;;
   nodes <- create_nodes ;;
   self <- this ;;
   match es self with
   | None => mraise (AttributeError "'NoneType' object has no attribute 'add'")
   | Some e =>
       match nodes with
       | None =>
           mraise (AttributeError "'NoneType' object has no attribute 'values'")
       | Some d =>
           e' <- lift (es_add e (PyDict.values d)) ;;
           assign (fun self => set_es self (Some e'))
       end
   end)%method.
End Nodes.
End ScenarioNodes.

(** ** Collaborators whose string formatting accepts every operand *)
Module DemoFormats.
Import Demo.

Definition formatting : Externals :=
  {| date_range := hourly;
     date_range_periods := hourly_periods;
     str_percent := fun _ n => Ok (str_int n);
     es_add := add;
     cfg_get := fun _ _ => Ok "cbc";
     receive_duals := fun m => Ok m;
     extend_basic_path := fun sub => Ok ("/home/user/.oemof/" ++ sub);
     path_join := fun a b => a ++ "/" ++ b;
     model_write := fun m _ => Ok m;
     model_solve := run_solver;
     processing_results := fun m => Ok m;
     processing_meta_results := fun _ => Ok PyDict.empty;
     processing_parameter_as_dict := fun _ => Ok 0%nat;
     datetime_now := 0;
     file_date := fun _ => Ok 0;
     get_version := Ok "0.2.3" |}.
End DemoFormats.

(** ** What a method leaves alone *)
Section Unchanged.
Context {F : Framework} {T : Tables}.

(** The attributes that hold the input of a scenario are the same in [s']
    as in [s]. *)
Definition unchanged_inputs (s s' : Scenario.t) : Prop :=
  Scenario.name s' = Scenario.name s /\
  Scenario.table_collection s' = Scenario.table_collection s /\
  Scenario.year s' = Scenario.year s /\
  Scenario.ignore_errors s' = Scenario.ignore_errors s /\
  Scenario.round_values s' = Scenario.round_values s /\
  Scenario.debug s' = Scenario.debug s /\
  Scenario.location s' = Scenario.location s.

(** The inputs and [results] are the same in [s'] as in [s]. *)
Definition quiet (s s' : Scenario.t) : Prop :=
  unchanged_inputs s s' /\ Scenario.results s' = Scenario.results s.

(** The step [c] leaves the inputs and [results] alone, however it ends. *)
Definition keeps_quiet {A : Type} (c : Scenario.M A) : Prop :=
  forall s s' r, c s = (s', r) -> quiet s s'.

(** The method [c] leaves the inputs alone, and [results] too when it
    raises. *)
Definition results_at_return {A : Type} (c : Scenario.M A) : Prop :=
  forall s s' r,
    c s = (s', r) ->
    unchanged_inputs s s' /\
    (forall e, r = Raise e -> Scenario.results s' = Scenario.results s).
End Unchanged.

(** ** Names with a space *)
Module Spaces.
(** [' ' in name] *)
Fixpoint has_space (name : string) : bool :=
  match name with
  | EmptyString => false
  | String c rest => Ascii.eqb c " "%char || has_space rest
  end.
End Spaces.

(** ** Paths

    [os.path.dirname] and [str.split(os.path.sep)[-1]] on a POSIX system,
    where the separator is [/]. *)
Module Paths.
Definition is_sep (c : ascii) : bool := Ascii.eqb c "/"%char.

(** [sep in p] *)
Fixpoint has_sep (p : string) : bool :=
  match p with
  | EmptyString => false
  | String c rest => is_sep c || has_sep rest
  end.

(** [(p[:i], p[i:])] for [i = p.rfind('/') + 1]: the part up to and with
    the last separator, and the part after it. *)
Fixpoint split_last (p : string) : string * string :=
  match p with
  | EmptyString => (EmptyString, EmptyString)
  | String c rest =>
      match split_last rest with
      | (EmptyString, tail) =>
          if is_sep c then (String c EmptyString, tail)
          else (EmptyString, String c tail)
      | (head, tail) => (String c head, tail)
      end
  end.

(** [head.rstrip('/')] *)
Fixpoint rstrip_sep (head : string) : string :=
  match head with
  | EmptyString => EmptyString
  | String c rest =>
      match rstrip_sep rest with
      | EmptyString => if is_sep c then EmptyString else String c EmptyString
      | stripped => String c stripped
      end
  end.

(** [head == '/' * len(head)] *)
Fixpoint all_sep (head : string) : bool :=
  match head with
  | EmptyString => true
  | String c rest => is_sep c && all_sep rest
  end.

(** [posixpath.dirname]: the head, without its trailing separators unless
    it consists of separators only. *)
Definition dirname (p : string) : string :=
  let head := fst (split_last p) in
  if negb (String.eqb head "") && negb (all_sep head)
  then rstrip_sep head
  else head.

(** [p.split('/')[-1]] *)
Definition last_component (p : string) : string := snd (split_last p).
End Paths.

(** ** Collaborators for storing and restoring *)
Class Storage {F : Framework} : Type := {
  (** [solph.EnergySystem()], with the index solph gives it by default *)
  EnergySystem_default : EnergySystem;
  (** [es.dump(dpath=..., filename=...)] *)
  es_dump : EnergySystem -> string -> string -> result unit;
  (** [es.restore(dpath=..., filename=...)]: the energy system with the
      attributes read from the file *)
  es_restore : EnergySystem -> string -> string -> result EnergySystem
}.

(** ** More of [class Scenario]: [dump_es] and [restore_es] *)
Module ScenarioStore.
Import Scenario.
Section Store.
Context {F : Framework} {T : Tables} {X : Externals} {S : Storage}.

Notation "x <- c ;; k" := (mbind c (fun x => k))
  (at level 61, c at next level, right associativity) : method_scope.
Notation "c ;;; k" := (mbind c (fun _ => k))
  (at level 61, right associativity) : method_scope.

Definition dump_es (filename : string) : M unit :=
  (let d_path := Paths.dirname filename in
   let d_fn := Paths.last_component filename in
   self <- this ;;
   match es self with
   | Some e => lift (es_dump e d_path d_fn)
   | None => mraise (AttributeError "'NoneType' object has no attribute 'dump'")
   end)%method.

Definition restore_es (filename : string) : M unit :=
  (self <- this ;;
   (match es self with
    | None => assign (fun self => set_es self (Some EnergySystem_default))
    | Some _ => mret tt
    end) ;;;
   let d_path := Paths.dirname filename in
   let d_fn := Paths.last_component filename in
   self <- this ;;
   (match es self with
    | Some e =>
        e' <- lift (es_restore e d_path d_fn) ;;
        assign (fun self => set_es self (Some e'))
    | None =>
        mraise (AttributeError "'NoneType' object has no attribute 'restore'")
    end) ;;;
   main <- results_getitem "main" ;;
   assign (fun self => set_results self (Some main)))%method.
End Store.
End ScenarioStore.

(** A store that keeps one dumped energy system per directory and file
    name. *)
Module DemoStore.
Import Demo.

Definition storage : Storage :=
  {| EnergySystem_default := EnergySystem_new [0];
     es_dump := fun _ _ _ => Ok tt;
     es_restore := fun e dpath fn =>
       if String.eqb fn "" then Raise (OtherError "Is a directory")
       else Ok (set_es_results e
                  [("main", FResults 7%nat); ("meta", FMeta PyDict.empty)]) |}.
End DemoStore.

(** ** Collaborators for reading and writing tables *)
Class Files {T : Tables} : Type := {
  (** [os.listdir(path)] *)
  listdir : string -> result (list string);
  (** [pd.read_csv(filename, index_col=[0], header=[0, 1])] *)
  read_csv : string -> result (Frame.DataFrame Label Value);
  (** [pd.ExcelFile(filename).sheet_names] *)
  excel_sheet_names : string -> result (list string);
  (** [xls.parse(sheet, index_col=[0], header=[0, 1])] for the workbook
      [filename] *)
  excel_parse : string -> string -> result (Frame.DataFrame Label Value);
  (** [os.path.isdir] and [os.makedirs] *)
  isdir : string -> bool;
  makedirs : string -> result unit;
  (** [pd.ExcelWriter(filename)], [df.to_excel(writer, name)] and
      [writer.save()] for the workbook [filename] *)
  excel_writer : string -> result unit;
  frame_to_excel :
    Frame.DataFrame Label Value -> string -> string -> result unit;
  writer_save : string -> result unit
}.

(** ** More of [class Scenario]: loading and saving the tables *)
Module ScenarioFiles.
Import Scenario.
Section Files.
Context {F : Framework} {T : Tables} {X : Externals} {D : Files}.

Notation "x <- c ;; k" := (mbind c (fun x => k))
  (at level 61, c at next level, right associativity) : method_scope.
Notation "c ;;; k" := (mbind c (fun _ => k))
  (at level 61, right associativity) : method_scope.

Definition set_location (self : t) (l : option string) : t :=
  {| name := name self; table_collection := table_collection self;
     year := year self; ignore_errors := ignore_errors self;
     round_values := round_values self; model := model self;
     es := es self; results := results self; debug := debug self;
     location := l |}.

Definition set_table_collection (self : t)
    (tables : PyDict.t (Frame.DataFrame Label Value)) : t :=
  {| name := name self; table_collection := tables;
     year := year self; ignore_errors := ignore_errors self;
     round_values := round_values self; model := model self;
     es := es self; results := results self; debug := debug self;
     location := location self |}.

(** The loop of both loaders: for each entry that has a table name, read
    its table, then assign it in the collection under that name. *)
Fixpoint load_each {A : Type} (name_of : A -> option string)
    (read : A -> result (Frame.DataFrame Label Value)) (entries : list A)
  : M unit :=
  match entries with
  | [] => mret tt
  | a :: rest =>
      ((match name_of a with
        | Some table =>
            df <- lift (read a) ;;
            assign (fun self =>
                      set_table_collection self
                        (PyDict.store (table_collection self) table df))
        | None => mret tt
        end) ;;;
       load_each name_of read rest)%method
  end.

(** [load_excel]: every sheet, under the name of the sheet. *)
Definition load_excel (filename : string) : M unit :=
  (assign (fun self => set_location self (Some filename)) ;;;
   sheets <- lift (excel_sheet_names filename) ;;
   load_each (fun sheet => Some sheet) (excel_parse filename) sheets)%method.

(** [load_csv]: the files with [file[-4:] == '.csv'], under [file[:-4]]. *)
Definition load_csv (path : string) : M unit :=
  (assign (fun self => set_location self (Some path)) ;;;
   files <- lift (listdir path) ;;
   load_each CsvNames.table_name
     (fun file => read_csv (path_join path file)) files)%method.

(** *** Saving: the calls made on the file system, in their order *)
Inductive call : Type :=
| Makedirs (directory : string)
| OpenWriter (filename : string)
| WriteSheet (filename sheet : string) (df : Frame.DataFrame Label Value)
| Save (filename : string).

(** A saving method answers with the calls it made and how it ended. *)
Definition Tr (A : Type) : Type := list call * result A.

Definition tr_call {A : Type} (c : call) (r : result A) : Tr A := ([c], r).

Definition tr_bind {A B : Type} (m : Tr A) (k : A -> Tr B) : Tr B :=
  match m with
  | (log, Ok a) => let (log', r) := k a in ((log ++ log')%list, r)
  | (log, Raise e) => (log, Raise e)
  end.

(** [sorted(items)]: ascending in the table name.  The names of a
    dictionary are distinct, so the comparison of two items is decided by
    their names. *)
Fixpoint insert_item (item : string * Frame.DataFrame Label Value)
    (l : list (string * Frame.DataFrame Label Value))
  : list (string * Frame.DataFrame Label Value) :=
  match l with
  | [] => [item]
  | item' :: rest =>
      if String.leb (fst item) (fst item')
      then item :: item' :: rest
      else item' :: insert_item item rest
  end.

Definition sorted (items : list (string * Frame.DataFrame Label Value))
  : list (string * Frame.DataFrame Label Value) :=
  fold_right insert_item [] items.

Fixpoint write_sheets (filename : string)
    (items : list (string * Frame.DataFrame Label Value)) : Tr unit :=
  match items with
  | [] => ([], Ok tt)
  | (sheet, df) :: rest =>
      tr_bind (tr_call (WriteSheet filename sheet df)
                 (frame_to_excel df filename sheet))
        (fun _ => write_sheets filename rest)
  end.

Definition to_excel (filename : string) (self : t) : Tr unit :=
  tr_bind (if isdir (Paths.dirname filename) then ([], Ok tt)
           else tr_call (Makedirs (Paths.dirname filename))
                  (makedirs (Paths.dirname filename)))
    (fun _ =>
       tr_bind (tr_call (OpenWriter filename) (excel_writer filename))
         (fun _ =>
            tr_bind (write_sheets filename
                       (sorted (PyDict.items (table_collection self))))
              (fun _ => tr_call (Save filename) (writer_save filename)))).

(** One item comes before another when its name does. *)
Definition by_name (a b : string * Frame.DataFrame Label Value) : Prop :=
  String.leb (fst a) (fst b) = true.

(** The entry [a] is loaded under the name [table]. *)
Definition names_entry {A : Type} (name_of : A -> option string)
    (table : string) (a : A) : bool :=
  match name_of a with
  | Some n => String.eqb n table
  | None => false
  end.

(** The sheets among the calls, with their tables. *)
Fixpoint sheets_written (log : list call)
  : list (string * Frame.DataFrame Label Value) :=
  match log with
  | [] => []
  | WriteSheet _ sheet df :: rest => (sheet, df) :: sheets_written rest
  | _ :: rest => sheets_written rest
  end.
End Files.
End ScenarioFiles.

(** A directory with two csv files and a text file, and a workbook with two
    sheets. *)
Module DemoFiles.
Import Demo.

Definition files : Files :=
  {| listdir := fun path =>
       if String.eqb path "scenarios/berlin"
       then Ok ["demand.csv"; "notes.txt"; "volatile source.csv"]
       else Raise (OtherError "No such file or directory");
     read_csv := fun filename =>
       if String.eqb filename "scenarios/berlin/demand.csv" then Ok gaps
       else Ok twice_a;
     excel_sheet_names := fun _ => Ok ["demand"; "volatile source"];
     excel_parse := fun _ sheet =>
       if String.eqb sheet "demand" then Ok gaps else Ok twice_a;
     isdir := fun d => negb (String.eqb d "");
     makedirs := fun d =>
       if String.eqb d ""
       then Raise (OtherError "[Errno 2] No such file or directory: ''")
       else Ok tt;
     excel_writer := fun _ => Ok tt;
     frame_to_excel := fun _ _ _ => Ok tt;
     writer_save := fun _ => Ok tt |}.
End DemoFiles.

(** ** Collaborators for drawing *)
Class Plotting {F : Framework} : Type := {
  Graph : Type;
  (** [graph.create_nx_graph(es, filename=..., remove_nodes_with_substrings=...)] *)
  create_nx_graph :
    option EnergySystem -> option string -> option Opaque -> result Graph;
  (** the body of [draw_graph]: layout, drawing, edge labels, showing; with
      the keyword arguments it was called with *)
  draw : Graph -> PyDict.t Opaque -> result unit
}.

(** ** [plot_nodes] and the call of [draw_graph] *)
Module Plot.
Section Plot.
Context {F : Framework} {T : Tables} {P : Plotting}.

(** The parameters of [draw_graph] after [grph]. *)
Definition draw_graph_keywords : list string :=
  ["edge_labels"; "node_color"; "edge_color"; "plot"; "node_size";
   "with_labels"; "arrows"; "layout"].

Definition is_keyword (key : string) : bool :=
  existsb (String.eqb key) draw_graph_keywords.

(** Binding [**kwargs] in the call [draw_graph(g, **kwargs)]: the first
    keyword that is no parameter ends the call, and so does a second value
    for [grph]. *)
Definition bind_keywords (kwargs : PyDict.t Opaque) : result unit :=
  match find (fun key => negb (is_keyword key)) (PyDict.keys kwargs) with
  | None => Ok tt
  | Some key =>
      if String.eqb key "grph"
      then Raise (TypeError "draw_graph() got multiple values for argument 'grph'")
      else Raise (TypeError ("draw_graph() got an unexpected keyword argument '"
                               ++ key ++ "'"))
  end.

(** [draw_graph(grph, **kwargs)] *)
Definition draw_graph (grph : Graph) (kwargs : PyDict.t Opaque) : result unit :=
  (bind_keywords kwargs ;;; draw grph kwargs)%py.

(** [plot_nodes(show=..., filename=..., **kwargs)] *)
Definition plot_nodes (show : pyval) (filename : option string)
    (kwargs : PyDict.t Opaque) (self : Scenario.t) : result Graph :=
  (let rm_nodes := PyDict.lookup kwargs "remove_nodes_with_substrings" in
   g <- create_nx_graph (Scenario.es self) filename rm_nodes ;;
   (if is_True show then draw_graph g kwargs else Ok tt) ;;;
   Ok g)%py.
End Plot.
End Plot.

(** A plotting stand-in: graphs are numbers. *)
Module DemoPlot.
Import Demo.

Definition plotting : Plotting :=
  {| Graph := nat;
     create_nx_graph := fun e _ _ =>
       match e with
       | Some e' => Ok (length (entities e'))
       | None => Raise (AttributeError "'NoneType' object has no attribute 'nodes'")
       end;
     draw := fun _ _ => Ok tt |}.
End DemoPlot.

(** * Properties *)

(** ** Dictionaries *)
Module PyDictFacts.
Section Facts.
Context {V : Type}.
Implicit Types (d : PyDict.t V) (k : string) (v : V).

Lemma lookup_store_same d k v :
  PyDict.lookup (PyDict.store d k v) k = Some v.
Proof.
  induction d as [| [k' v'] d IH]; simpl.
  - now rewrite String.eqb_refl.
  - destruct (String.eqb k' k) eqn:E; simpl; rewrite E; auto.
Qed.

Lemma lookup_store_other d k k' v :
  k' <> k -> PyDict.lookup (PyDict.store d k v) k' = PyDict.lookup d k'.
Proof.
  intros Hne. induction d as [| [k0 v0] d IH]; simpl.
  - destruct (String.eqb k k') eqn:E; auto.
    apply String.eqb_eq in E. congruence.
  - destruct (String.eqb k0 k) eqn:E; simpl.
    + apply String.eqb_eq in E. subst k0.
      destruct (String.eqb k k') eqn:E'; auto.
      apply String.eqb_eq in E'. congruence.
    + now rewrite IH.
Qed.

(** [k in d] is false exactly when no entry is found. *)
Lemma lookup_None_keys d k :
  PyDict.lookup d k = None <-> ~ In k (PyDict.keys d).
Proof.
  induction d as [| [k' v'] d IH]; simpl.
  - tauto.
  - destruct (String.eqb k' k) eqn:E.
    + apply String.eqb_eq in E.
      split; [discriminate | intros H; exfalso; auto].
    + apply String.eqb_neq in E. rewrite IH. tauto.
Qed.

(** Assigning to a key that is present keeps the keys and their order. *)
Lemma keys_store_present d k v :
  PyDict.lookup d k <> None -> PyDict.keys (PyDict.store d k v) = PyDict.keys d.
Proof.
  induction d as [| [k' v'] d IH]; simpl; intros H.
  - congruence.
  - destruct (String.eqb k' k) eqn:E; simpl; auto.
    f_equal. now apply IH.
Qed.

(** Assigning to a new key appends the entry. *)
Lemma store_absent d k v :
  PyDict.lookup d k = None -> PyDict.store d k v = (d ++ [(k, v)])%list.
Proof.
  induction d as [| [k' v'] d IH]; simpl; intros H; auto.
  destruct (String.eqb k' k) eqn:E; [discriminate |].
  f_equal. now apply IH.
Qed.

Lemma getitem_store_same d k v :
  PyDict.getitem (PyDict.store d k v) k = Ok v.
Proof. unfold PyDict.getitem. now rewrite lookup_store_same. Qed.
End Facts.
End PyDictFacts.

(** ** The node dictionary *)
Module NodeDictFacts.
Import NodeDict PyDictFacts.

Lemma append_assoc (a b c : string) : (a ++ b) ++ c = a ++ (b ++ c).
Proof. induction a as [| x a IH]; simpl; [reflexivity | now rewrite IH]. Qed.

(** The message as one reads it in the source. *)
Lemma duplicate_msg_text (key : string) :
  duplicate_msg key =
  "Key '" ++ key
  ++ "' already exists. Duplicate keys are not allowed in a node dictionary.".
Proof.
  unfold duplicate_msg. rewrite append_assoc. simpl. f_equal. f_equal. f_equal.
  f_equal. f_equal. now rewrite append_assoc.
Qed.

Section Registry.
Context {Node : Type}.
Implicit Types (d : NodeDict.t Node) (k : string) (v : item Node).

(** Registration goes through exactly when [get] answers [None]. *)
Lemma setitem_get_None d k v :
  get d k = ItemNone -> __setitem__ d k v = Ok (PyDict.store d k v).
Proof. unfold __setitem__. now intros ->. Qed.

(** A key that holds a node rejects every further registration, with the
    message naming the key, and nothing is written. *)
Lemma setitem_node_present d k n v :
  PyDict.lookup d k = Some (ItemNode n) ->
  __setitem__ d k v = Raise (KeyError (duplicate_msg k)).
Proof. unfold __setitem__, get. now intros ->. Qed.

(** First write wins when the first value is a node. *)
Lemma first_node_wins k n v :
  exists d1,
    __setitem__ PyDict.empty k (ItemNode n) = Ok d1 /\
    __setitem__ d1 k v = Raise (KeyError (duplicate_msg k)) /\
    PyDict.getitem d1 k = Ok (ItemNode n).
Proof.
  exists [(k, ItemNode n)]. unfold __setitem__, get, PyDict.getitem. simpl.
  rewrite String.eqb_refl. auto.
Qed.
End Registry.

(** C1.  Registering ["bus"] -> [None] in a fresh node dictionary and then
  ["bus"] -> node 1: the second registration does not fail, and the lookup
  of ["bus"] afterwards returns node 1, not the first value.  The
  first-write-wins property is violated when the first value is [None]. *)
Theorem setitem_None_then_node :
  let d1 : NodeDict.t nat := [("bus", ItemNone)] in
  __setitem__ PyDict.empty "bus" ItemNone = Ok d1 /\
  __setitem__ d1 "bus" (ItemNode 1%nat) = Ok [("bus", ItemNode 1%nat)] /\
  PyDict.getitem [("bus", ItemNode 1%nat)] "bus" = Ok (ItemNode 1%nat) /\
  ~ first_write_wins "bus" ItemNone (ItemNode 1%nat).
Proof.
  cbv zeta. repeat split.
  intros (d1 & H1 & (msg & H2) & _).
  vm_compute in H1. injection H1 as <-. vm_compute in H2. discriminate H2.
Qed.

(** C2.  The key ["bus"] is present in the dictionary, holding [None]; a
  registration attempt for it raises nothing and replaces the entry. *)
Theorem setitem_present_None_no_error :
  let d : NodeDict.t nat := [("grid", ItemNode 0%nat); ("bus", ItemNone)] in
  In "bus" (PyDict.keys d) /\
  __setitem__ d "bus" (ItemNode 1%nat)
  = Ok [("grid", ItemNode 0%nat); ("bus", ItemNode 1%nat)].
Proof. cbv zeta. split; [simpl; auto | reflexivity]. Qed.

(** C3.  A key that is not in the dictionary: the registration succeeds,
  looking the key up afterwards returns exactly the registered value, and
  every other key reads as before. *)
Theorem setitem_new_key {Node : Type} (d : NodeDict.t Node) (k : string)
  (v : item Node) :
  ~ In k (PyDict.keys d) ->
  exists d',
  __setitem__ d k v = Ok d' /\
  PyDict.getitem d' k = Ok v /\
  (forall k', k' <> k -> PyDict.lookup d' k' = PyDict.lookup d k').
Proof.
  intros Hnew. apply lookup_None_keys in Hnew.
  exists (PyDict.store d k v). split; [| split].
  - apply setitem_get_None. unfold get. now rewrite Hnew.
  - apply getitem_store_same.
  - intros k' Hne. now apply lookup_store_other.
Qed.

Lemma setitem_new_key_witness :
  ~ In "sink" (PyDict.keys [("bus", ItemNode 1%nat)]) /\
  exists d',
  __setitem__ [("bus", ItemNode 1%nat)] "sink" (ItemNode 2%nat) = Ok d' /\
  PyDict.getitem d' "sink" = Ok (ItemNode 2%nat) /\
  (forall k', k' <> "sink" ->
     PyDict.lookup d' k' = PyDict.lookup [("bus", ItemNode 1%nat)] k').
Proof.
  assert (H : ~ In "sink" (PyDict.keys [("bus", ItemNode 1%nat)])).
  { simpl. intros [H | []]. discriminate H. }
  split; [exact H | exact (setitem_new_key _ "sink" (ItemNode 2%nat) H)].
Defined.

(** C9.  A key whose stored value is [None]: a registration under it
  succeeds for every value, replaces the [None] entry in place (no key is
  added, the other keys read as before), and the key then holds the new
  value. *)
Theorem setitem_over_None {Node : Type} (d : NodeDict.t Node) (k : string)
  (v : item Node) :
  PyDict.lookup d k = Some ItemNone ->
  __setitem__ d k v = Ok (PyDict.store d k v) /\
  PyDict.getitem (PyDict.store d k v) k = Ok v /\
  PyDict.keys (PyDict.store d k v) = PyDict.keys d /\
  (forall k', k' <> k ->
   PyDict.lookup (PyDict.store d k v) k' = PyDict.lookup d k').
Proof.
  intros Hnone. repeat split.
  - apply setitem_get_None. unfold get. now rewrite Hnone.
  - apply getitem_store_same.
  - apply keys_store_present. congruence.
  - intros k' Hne. now apply lookup_store_other.
Qed.

Lemma setitem_over_None_witness :
  let d : NodeDict.t nat := [("bus", ItemNone); ("sink", ItemNode 2%nat)] in
  PyDict.lookup d "bus" = Some ItemNone /\
  __setitem__ d "bus" (ItemNode 5%nat) = Ok (PyDict.store d "bus" (ItemNode 5%nat)) /\
  PyDict.getitem (PyDict.store d "bus" (ItemNode 5%nat)) "bus"
  = Ok (ItemNode 5%nat).
Proof.
  cbv zeta.
  pose proof (setitem_over_None
              [("bus", ItemNone); ("sink", ItemNode 2%nat)] "bus"
              (ItemNode 5%nat) eq_refl) as (H1 & H2 & _).
  split; [reflexivity | split; [exact H1 | exact H2]].
Defined.
End NodeDictFacts.

(** ** Printing *)

Example str_int_2019 : str_int 2019 = "2019".
Proof. reflexivity. Qed.

Example str_int_zero : str_int 0 = "0".
Proof. reflexivity. Qed.

Example str_int_negative : str_int (-44) = "-44".
Proof. reflexivity. Qed.

(** ** The leap-year test *)
Module CalendarFacts.
Import Calendar.

Section Isleap.
Variable str_percent : string -> Z -> result string.

Lemma isleap_int (y : Z) :
  isleap str_percent (PyInt y)
  = Ok ((y mod 4 =? 0) && (negb (y mod 100 =? 0) || (y mod 400 =? 0))).
Proof.
  unfold isleap. simpl.
  destruct (y mod 4 =? 0); simpl; [| reflexivity].
  destruct (y mod 100 =? 0); simpl; reflexivity.
Qed.

Lemma isleap_leap_year (y : Z) :
  leap_year y -> isleap str_percent (PyInt y) = Ok true.
Proof.
  intros [H4 H]. rewrite isleap_int.
  apply Z.eqb_eq in H4. rewrite H4. simpl. f_equal.
  destruct H as [H | H].
  - apply Z.eqb_neq in H. now rewrite H.
  - apply Z.eqb_eq in H. rewrite H. apply orb_true_r.
Qed.

Lemma isleap_common_year (y : Z) :
  ~ leap_year y -> isleap str_percent (PyInt y) = Ok false.
Proof.
  intros Hn. rewrite isleap_int. f_equal.
  destruct (y mod 4 =? 0) eqn:E4; [| reflexivity].
  destruct (y mod 100 =? 0) eqn:E100; simpl.
  - destruct (y mod 400 =? 0) eqn:E400; [| reflexivity].
    exfalso. apply Hn. apply Z.eqb_eq in E4, E400. split; auto.
  - exfalso. apply Hn. apply Z.eqb_eq in E4. apply Z.eqb_neq in E100.
    split; auto.
Qed.


End Isleap.

Example isleap_2019 sp : isleap sp (PyInt 2019) = Ok false.
Proof. reflexivity. Qed.
Example isleap_2020 sp : isleap sp (PyInt 2020) = Ok true.
Proof. reflexivity. Qed.
Example isleap_1900 sp : isleap sp (PyInt 1900) = Ok false.
Proof. reflexivity. Qed.
Example isleap_2000 sp : isleap sp (PyInt 2000) = Ok true.
Proof. reflexivity. Qed.
End CalendarFacts.

(** ** The scenario: initialising the energy system *)
Module InitialiseFacts.
Import Scenario CalendarFacts.

Lemma is_True_false (v : pyval) : is_True v = false <-> v <> PyBool true.
Proof.
  destruct v as [| [|] | |]; simpl; split; intros H;
    try reflexivity; try discriminate; try congruence.
Qed.

Lemma is_True_true (v : pyval) : is_True v = true <-> v = PyBool true.
Proof.
  destruct v as [| [|] | |]; simpl; split; intros H;
    try reflexivity; try discriminate.
Qed.

Section Initialise.
Context {F : Framework} {T : Tables} {X : Externals}.
Implicit Types self : Scenario.t.

(** Once the number of steps is known, the rest is pandas' and solph's. *)
Lemma steps_known self (n : Z) :
  number_of_time_steps self = Ok n -> time_index_steps self n.
Proof.
  intros Hn. unfold time_index_steps, initialise_energy_system.
  rewrite Hn. simpl. split; [reflexivity |].
  intros e. destruct (date_range _ n "H") as [idx |] eqn:E; simpl.
  - intros H. injection H as <-. simpl.
    now apply date_range_periods in E.
  - discriminate.
Qed.

Lemma steps_debug self :
  debug self = PyBool true -> number_of_time_steps self = Ok 3.
Proof. unfold number_of_time_steps. now intros ->. Qed.

Lemma steps_leap self (y : Z) :
  debug self <> PyBool true -> year self = PyInt y -> leap_year y ->
  number_of_time_steps self = Ok 8784.
Proof.
  intros Hd Hy Hl. unfold number_of_time_steps.
  apply is_True_false in Hd. rewrite Hd, Hy.
  now rewrite (isleap_leap_year _ _ Hl).
Qed.

Lemma steps_common self (y : Z) :
  debug self <> PyBool true -> year self = PyInt y -> ~ leap_year y ->
  number_of_time_steps self = Ok 8760.
Proof.
  intros Hd Hy Hl. unfold number_of_time_steps.
  apply is_True_false in Hd. rewrite Hd, Hy.
  now rewrite (isleap_common_year _ _ Hl).
Qed.

(** C4.  With [debug] anything but [True] and an integer year, the time
    index of the initialised energy system has exactly 8760 steps when the
    year is not a leap year and exactly 8784 when it is; with [debug] set to
    [True] it has exactly 3 steps, whatever [year] holds. *)
Theorem initialise_time_steps self :
  (debug self <> PyBool true ->
   forall y, year self = PyInt y ->
     (~ leap_year y -> time_index_steps self 8760) /\
     (leap_year y -> time_index_steps self 8784)) /\
  (debug self = PyBool true -> time_index_steps self 3).
Proof.
  split.
  - intros Hd y Hy. split; intros Hl; apply steps_known.
    + now apply (steps_common self y).
    + now apply (steps_leap self y).
  - intros Hd. apply steps_known. now apply steps_debug.
Qed.

End Initialise.

Import Demo.

(** The demo collaborators really build the three indices. *)
Example demo_2019 : steps_built (Demo.scenario (PyInt 2019) PyNone) = Some 8760.
Proof. vm_compute. reflexivity. Qed.

Example demo_2020 :
  steps_built (Demo.scenario (PyInt 2020) (PyBool false)) = Some 8784.
Proof. vm_compute. reflexivity. Qed.

Example demo_debug :
  steps_built (Demo.scenario (PyInt 2020) (PyBool true)) = Some 3.
Proof. vm_compute. reflexivity. Qed.

Lemma initialise_time_steps_witness :
  time_index_steps (Demo.scenario (PyInt 2019) PyNone) 8760 /\
  time_index_steps (Demo.scenario (PyInt 2020) (PyBool false)) 8784 /\
  time_index_steps (Demo.scenario PyNone (PyBool true)) 3.
Proof.
  split; [| split].
  - apply (proj1 (initialise_time_steps (Demo.scenario (PyInt 2019) PyNone)))
      with (y := 2019); [discriminate | reflexivity |].
    intros [H _]. discriminate H.
  - apply (proj1 (initialise_time_steps
                    (Demo.scenario (PyInt 2020) (PyBool false))))
      with (y := 2020); [discriminate | reflexivity |].
    split; [reflexivity | left; discriminate].
  - apply (proj2 (initialise_time_steps (Demo.scenario PyNone (PyBool true)))).
    reflexivity.
Defined.

End InitialiseFacts.

(** ** The scenario: the completeness check of a table *)
Module CheckTableFacts.
Import Scenario.

Section CheckTable.
Context {F : Framework} {T : Tables} {X : Externals}.
Implicit Types (df : Frame.DataFrame Label Value) (self : Scenario.t).

Lemma label_eqb_eq (a b : Label) : label_eqb a b = true <-> a = b.
Proof.
  unfold label_eqb. destruct (label_eq_dec a b); split; intros H;
    try reflexivity; try discriminate; congruence.
Qed.

Lemma isnull_values_any_missing df :
  Frame.isnull_values_any df = true <-> has_missing df.
Proof.
  unfold Frame.isnull_values_any, has_missing. rewrite existsb_exists. split.
  - intros ([l cells] & Hin & Hany). simpl in Hany.
    apply existsb_exists in Hany as (c & Hc & Hnull).
    destruct c as [v |]; [discriminate |]. now exists l, cells.
  - intros (l & cells & Hin & Hnone). exists (l, cells). split; [exact Hin |].
    simpl. apply existsb_exists. now exists None.
Qed.

(** [missing_columns] lists exactly the columns with a missing value. *)
Lemma in_missing_columns df (column : Label) :
  In column (missing_columns df) <->
  exists cells, In (column, cells) df /\ In None cells.
Proof.
  unfold missing_columns. rewrite in_map_iff. split.
  - intros ([l cells] & Heq & Hin). simpl in Heq. subst l.
    apply filter_In in Hin as [Hin Hany]. simpl in Hany.
    apply existsb_exists in Hany as (c & Hc & Hnull).
    destruct c as [v |]; [discriminate |]. now exists cells.
  - intros (cells & Hin & Hnone). exists (column, cells). split; [reflexivity |].
    apply filter_In. split; [exact Hin |]. simpl.
    apply existsb_exists. now exists None.
Qed.

Lemma select_absent df (column : Label) :
  ~ In column (Frame.columns df) -> Frame.select label_eqb df column = [].
Proof.
  induction df as [| [l cells] df IH]; simpl; intros Hn; [reflexivity |].
  destruct (label_eqb l column) eqn:E.
  - apply label_eqb_eq in E. exfalso. auto.
  - apply IH. auto.
Qed.

(** Under distinct labels, [df[column]] is the one column of that label. *)
Lemma select_unique df (column : Label) (cells : list (Frame.cell Value)) :
  NoDup (Frame.columns df) -> In (column, cells) df ->
  Frame.select label_eqb df column = [(column, cells)].
Proof.
  induction df as [| [l c] df IH]; simpl; intros Hnd Hin; [contradiction |].
  inversion Hnd as [| ? ? Hnotin Hnd']; subst.
  destruct Hin as [Heq | Hin].
  - injection Heq as -> ->.
    replace (label_eqb column column) with true
      by (symmetry; now apply label_eqb_eq).
    f_equal. now apply select_absent.
  - destruct (label_eqb l column) eqn:E.
    + apply label_eqb_eq in E. subst l. exfalso. apply Hnotin.
      change column with (fst (column, cells)). now apply in_map.
    + now apply IH.
Qed.

(** The loop appends the labels with a missing value to [c], in order. *)
Lemma null_columns_unique df (cols : Frame.DataFrame Label Value)
    (c : list Label) :
  (forall col, In col cols -> Frame.select label_eqb df (fst col) = [col]) ->
  null_columns df (Frame.columns cols) c = Ok (c ++ missing_columns cols)%list.
Proof.
  revert c. induction cols as [| [l cells] cols IH]; intros c Hsel.
  - simpl. now rewrite app_nil_r.
  - pose proof (Hsel (l, cells) (or_introl eq_refl)) as Hl. simpl in Hl.
    change (null_columns df (Frame.columns ((l, cells) :: cols)) c)
      with (bind (Frame.column_isnull_any label_eqb repr_label df l)
              (fun b => null_columns df (Frame.columns cols)
                          (if b then (c ++ [l])%list else c))).
    unfold Frame.column_isnull_any. rewrite Hl.
    cbn [bind].
    rewrite IH by (intros col Hc; apply Hsel; now right).
    unfold missing_columns. cbn [filter snd].
    destruct (Frame.series_isnull_any cells); cbn [map fst].
    + now rewrite <- app_assoc.
    + reflexivity.
Qed.

(** What the check does on a table with distinct labels. *)
Lemma check_table_unique self (table_name : string) df :
  PyDict.lookup (table_collection self) table_name = Some df ->
  NoDup (Frame.columns df) ->
  check_table self table_name
  = if Frame.isnull_values_any df
    then Raise (ValueError (nan_msg table_name (missing_columns df)))
    else Ok tt.
Proof.
  intros Hdf Hnd. unfold check_table, PyDict.getitem. rewrite Hdf. simpl.
  destruct (Frame.isnull_values_any df); [| reflexivity].
  rewrite null_columns_unique; [reflexivity |].
  intros [l cells] Hin. simpl. now apply select_unique.
Qed.

(** With a missing value in the table the check raises, whatever the
    labels are. *)
Lemma check_table_total self (table_name : string) df :
  PyDict.lookup (table_collection self) table_name = Some df ->
  if Frame.isnull_values_any df
  then exists e, check_table self table_name = Raise e
  else check_table self table_name = Ok tt.
Proof.
  intros Hdf. unfold check_table, PyDict.getitem. rewrite Hdf. simpl.
  destruct (Frame.isnull_values_any df); [| reflexivity].
  destruct (null_columns df (Frame.columns df) []); simpl; eexists; reflexivity.
Qed.

(** C6.  For every table of the collection, the completeness check fails if
    and only if the table has a missing value, and a table without one
    passes.  When the column labels of the table are pairwise distinct, the
    failure is the [ValueError] whose message names the table and lists the
    labels of the columns with a missing value. *)
Theorem check_table_missing_values self (table_name : string) df :
  PyDict.lookup (table_collection self) table_name = Some df ->
  ((exists e, check_table self table_name = Raise e) <-> has_missing df) /\
  (~ has_missing df -> check_table self table_name = Ok tt) /\
  (NoDup (Frame.columns df) -> completeness_check self table_name df).
Proof.
  intros Hdf.
  pose proof (check_table_total self table_name df Hdf) as Htot.
  pose proof (isnull_values_any_missing df) as Hiff.
  assert (Hfails : (exists e, check_table self table_name = Raise e)
                   <-> has_missing df).
  { destruct (Frame.isnull_values_any df).
    - split; [intros _; now apply Hiff | intros _; exact Htot].
    - split.
      + intros [e He]. rewrite Htot in He. discriminate He.
      + intros H. apply Hiff in H. discriminate H. }
  assert (Hpass : ~ has_missing df -> check_table self table_name = Ok tt).
  { intros Hn. destruct (Frame.isnull_values_any df); [| exact Htot].
    exfalso. apply Hn. now apply Hiff. }
  split; [exact Hfails | split; [exact Hpass |]].
  intros Hnd. unfold completeness_check.
  split; [exact Hfails | split; [| exact Hpass]].
  intros e He. rewrite (check_table_unique self table_name df Hdf Hnd) in He.
  destruct (Frame.isnull_values_any df); [| discriminate He].
  now injection He as <-.
Qed.
End CheckTable.

Import Demo.

Lemma check_table_missing_values_witness :
  completeness_check (scenario_with_tables [("demand", gaps)]) "demand" gaps.
Proof.
  apply (check_table_missing_values
           (scenario_with_tables [("demand", gaps)]) "demand" gaps eq_refl).
  unfold gaps, Frame.columns. simpl.
  repeat constructor; simpl; intuition discriminate.
Defined.

(** On the table with gaps the message reads as the source formats it. *)
Example check_table_gaps :
  check_table (scenario_with_tables [("demand", gaps)]) "demand"
  = Raise (ValueError "Nan Values in the demand table (columns: ['a', 'c']).").
Proof. reflexivity. Qed.

(** Two columns under one label and a missing value: the check fails, but
    with pandas' complaint about the truth value of a Series, which names
    neither the table nor a column. *)
Lemma check_table_twice_a :
  check_table (scenario_with_tables [("demand", twice_a)]) "demand"
  = Raise (ValueError Frame.ambiguous_msg) /\
  ~ completeness_check (scenario_with_tables [("demand", twice_a)])
      "demand" twice_a.
Proof.
  split; [reflexivity |].
  intros (_ & Hmsg & _).
  specialize (Hmsg (ValueError Frame.ambiguous_msg) eq_refl).
  vm_compute in Hmsg. discriminate Hmsg.
Qed.
End CheckTableFacts.

(** ** The scenario: methods that change it *)
Module MethodFacts.
Import Scenario PyDictFacts.

Notation "x <- c ;; k" := (mbind c (fun x => k))
  (at level 61, c at next level, right associativity) : method_scope.

Section Methods.
Context {F : Framework} {T : Tables} {X : Externals}.
Implicit Types self : Scenario.t.

Lemma set_es_set_es self (a b : option EnergySystem) :
  set_es (set_es self a) b = set_es self b.
Proof. reflexivity. Qed.

Lemma set_es_same self : set_es self (es self) = self.
Proof. now destruct self. Qed.

(** A sequence returns only if its first part returns. *)
Lemma mbind_returns {A B : Type} (c : M A) (k : A -> M B) self self' (b : B) :
  mbind c k self = (self', Ok b) ->
  exists a s1, c self = (s1, Ok a) /\ k a s1 = (self', Ok b).
Proof.
  unfold mbind. destruct (c self) as [s1 [a | e]]; intros H.
  - now exists a, s1.
  - discriminate H.
Qed.

Lemma lift_returns {A : Type} (r : result A) self self' (a : A) :
  lift r self = (self', Ok a) -> r = Ok a /\ self' = self.
Proof. unfold lift. intros H. injection H as <- ->. auto. Qed.

Lemma this_returns self self' (s : Scenario.t) :
  this self = (self', Ok s) -> s = self /\ self' = self.
Proof. unfold this. intros H. injection H as <- <-. auto. Qed.

(** The energy system is initialised from the year and the debug value of
    the scenario and from nothing else. *)
Lemma initialise_energy_system_reads (s1 s2 : Scenario.t) :
  year s1 = year s2 -> debug s1 = debug s2 ->
  initialise_energy_system s1 = initialise_energy_system s2.
Proof.
  intros Hy Hd. unfold initialise_energy_system, number_of_time_steps.
  now rewrite Hy, Hd.
Qed.

Lemma initialise_es_default self :
  initialise_es PyNone self
  = match initialise_energy_system self with
    | Ok e => (set_es self (Some e), Ok tt)
    | Raise x => (self, Raise x)
    end.
Proof.
  unfold initialise_es, mbind, mret, this, lift, assign.
  destruct (initialise_energy_system self); reflexivity.
Qed.

(** C10.  With no energy system yet, [add_nodes] first initialises one from
    the scenario as it stands (its year and debug value), then adds the
    values of [nodes] to it; with an energy system in place, the nodes are
    added to that one and nothing is initialised.  Nothing but [es] changes. *)
Theorem add_nodes_initialises_once self (nodes : NodeDict.t Node) :
  (es self = None ->
   add_nodes nodes self
   = match initialise_energy_system self with
     | Ok e0 =>
         match es_add e0 (PyDict.values nodes) with
         | Ok e1 => (set_es self (Some e1), Ok tt)
         | Raise x => (set_es self (Some e0), Raise x)
         end
     | Raise x => (self, Raise x)
     end) /\
  (forall e, es self = Some e ->
   add_nodes nodes self
   = match es_add e (PyDict.values nodes) with
     | Ok e1 => (set_es self (Some e1), Ok tt)
     | Raise x => (self, Raise x)
     end).
Proof.
  split.
  - intros Hnone. unfold add_nodes.
    unfold mbind at 1. unfold this at 1. cbn iota. rewrite Hnone.
    unfold mbind at 1. rewrite initialise_es_default.
    destruct (initialise_energy_system self) as [e0 | x]; [| reflexivity].
    unfold mbind, this, lift, assign. cbn.
    destruct (es_add e0 (PyDict.values nodes)); reflexivity.
  - intros e Hsome. unfold add_nodes.
    unfold mbind, this, lift, assign, mret. rewrite Hsome. cbn. rewrite Hsome.
    destruct (es_add e (PyDict.values nodes)); reflexivity.
Qed.

(** *** [solve] *)

Lemma assign_returns (f : Scenario.t -> Scenario.t) self self' :
  assign f self = (self', Ok tt) -> self' = f self.
Proof. unfold assign. intros H. now injection H as <-. Qed.

Lemma the_model_returns (attr : string) self self' (m : Model) :
  the_model attr self = (self', Ok m) -> model self = Some m /\ self' = self.
Proof.
  unfold the_model, mbind, this, mret, mraise.
  destruct (model self) as [m0 |]; intros H; [| discriminate H].
  injection H as <- <-. auto.
Qed.

Lemma the_results_returns self self' (r : option (PyDict.t facet)) :
  the_results self = (self', Ok r) ->
  exists e, es self = Some e /\ es_results e = r /\ self' = self.
Proof.
  unfold the_results, mbind, this, mret, mraise.
  destruct (es self) as [e |]; intros H; [| discriminate H].
  injection H as <- <-. now exists e.
Qed.

Lemma results_setitem_returns (key : string) (v : facet) self self' :
  results_setitem key v self = (self', Ok tt) ->
  exists e d,
    es self = Some e /\ es_results e = Some d /\
    self' = set_es self (Some (set_es_results e (PyDict.store d key v))).
Proof.
  unfold results_setitem. intros H.
  apply mbind_returns in H as (r & s1 & Hr & H).
  apply the_results_returns in Hr as (e & He & Hd & ->).
  destruct r as [d |]; [| discriminate H].
  apply assign_returns in H. rewrite He in H. now exists e, d.
Qed.

Lemma results_getitem_returns (key : string) self self' (f : facet) :
  results_getitem key self = (self', Ok f) ->
  exists e d,
    es self = Some e /\ es_results e = Some d /\
    PyDict.lookup d key = Some f /\ self' = self.
Proof.
  unfold results_getitem. intros H.
  apply mbind_returns in H as (r & s1 & Hr & H).
  apply the_results_returns in Hr as (e & He & Hd & ->).
  destruct r as [d |]; [| discriminate H].
  apply lift_returns in H as [Hget ->].
  unfold PyDict.getitem in Hget.
  destruct (PyDict.lookup d key) as [f0 |] eqn:E; [| discriminate Hget].
  injection Hget as ->. now exists e, d.
Qed.

Lemma meta_setitem_returns (key : string) (v : metaval) self self' :
  meta_setitem key v self = (self', Ok tt) ->
  exists e d m,
    es self = Some e /\ es_results e = Some d /\
    PyDict.lookup d "meta" = Some (FMeta m) /\
    self' = set_es self
              (Some (set_es_results e
                       (PyDict.store d "meta" (FMeta (PyDict.store m key v))))).
Proof.
  unfold meta_setitem. intros H.
  apply mbind_returns in H as (f & s1 & Hf & H).
  apply results_getitem_returns in Hf as (e & d & He & Hd & Hl & ->).
  destruct f as [| m | | |]; try discriminate H.
  apply results_setitem_returns in H as (e' & d' & He' & Hd' & ->).
  rewrite He in He'. injection He' as <-.
  rewrite Hd in Hd'. injection Hd' as <-.
  now exists e, d, m.
Qed.

Lemma set_model_same self : set_model self (model self) = self.
Proof. now destruct self. Qed.

(** Asking the model for duals changes the model at most. *)
Lemma duals_block_returns (with_duals : bool) self self' :
  (if with_duals
   then (m <- the_model "receive_duals" ;;
         m' <- lift (receive_duals m) ;;
         assign (fun s => set_model s (Some m')))%method
   else mret tt) self = (self', Ok tt) ->
  exists mo, self' = set_model self mo.
Proof.
  destruct with_duals; intros H.
  - apply mbind_returns in H as (m & s1 & Hm & H).
    apply the_model_returns in Hm as [_ ->].
    apply mbind_returns in H as (m' & s2 & Hm' & H).
    apply lift_returns in Hm' as [_ ->].
    apply assign_returns in H. now exists (Some m').
  - unfold mret in H. injection H as <-.
    exists (model self). symmetry. apply set_model_same.
Qed.

(** Writing the lp-file changes the model at most. *)
Lemma debug_block_returns (dbg : bool) self self' :
  (if dbg
   then (base <- lift (extend_basic_path "lp_files") ;;
         m <- the_model "write" ;;
         m' <- lift (model_write m (path_join base "berlin.lp")) ;;
         assign (fun s => set_model s (Some m')))%method
   else mret tt) self = (self', Ok tt) ->
  exists mo, self' = set_model self mo.
Proof.
  destruct dbg; intros H.
  - apply mbind_returns in H as (base & s0 & Hb & H).
    apply lift_returns in Hb as [_ ->].
    apply mbind_returns in H as (m & s1 & Hm & H).
    apply the_model_returns in Hm as [_ ->].
    apply mbind_returns in H as (m' & s2 & Hm' & H).
    apply lift_returns in Hm' as [_ ->].
    apply assign_returns in H. now exists (Some m').
  - unfold mret in H. injection H as <-.
    exists (model self). symmetry. apply set_model_same.
Qed.


Ltac same_dict He Hd He' Hd' :=
  rewrite He in He'; injection He' as <-;
  rewrite Hd in Hd'; injection Hd' as <-.

End Methods.
End MethodFacts.

Module MethodExamples.
Import Scenario Demo MethodFacts.

Lemma add_nodes_initialises_once_witness :
  add_nodes two_nodes (Demo.scenario (PyInt 2019) (PyBool true))
  = (set_es (Demo.scenario (PyInt 2019) (PyBool true))
       (Some (@Build_EnergySystem Demo.framework [0; 1; 2]
                [NodeDict.ItemNode 1%nat; NodeDict.ItemNode 2%nat] None)),
     Ok tt) /\
  add_nodes two_nodes ready
  = (set_es ready
       (Some (@Build_EnergySystem Demo.framework [0; 1; 2]
                [NodeDict.ItemNode 1%nat; NodeDict.ItemNode 2%nat] None)),
     Ok tt).
Proof.
  split.
  - rewrite (proj1 (add_nodes_initialises_once
                      (Demo.scenario (PyInt 2019) (PyBool true)) two_nodes)
               eq_refl).
    vm_compute. reflexivity.
  - rewrite (proj2 (add_nodes_initialises_once ready two_nodes)
               (EnergySystem_new (F:=Demo.framework) [0; 1; 2]) eq_refl).
    vm_compute. reflexivity.
Defined.

(** Running [solve] on the demo scenario: the solver left an empty results
    dictionary, and afterwards it has the four keys. *)
Example solve_ready :
  solve false ready = (solved, Ok tt) /\
  option_map (fun e => option_map PyDict.keys (es_results e)) (es solved)
  = Some (Some ["main"; "meta"; "param"; "scenario"]) /\
  results solved = Some (FResults 1%nat).
Proof. split; [| split]; vm_compute; reflexivity. Qed.

End MethodExamples.

(** ** The file names of a csv-collection *)
Module CsvNamesFacts.
Import CsvNames.

Lemma length_append (a b : string) :
  String.length (a ++ b) = (String.length a + String.length b)%nat.
Proof. induction a as [| c a IH]; simpl; [reflexivity | now rewrite IH]. Qed.

Lemma substring_suffix (a b : string) :
  substring (String.length a) (String.length b) (a ++ b) = b.
Proof.
  induction a as [| c a IH]; simpl; [| exact IH].
  induction b as [| c b IH]; simpl; [reflexivity | now rewrite IH].
Qed.

Lemma substring_prefix (a b : string) :
  substring 0 (String.length a) (a ++ b) = a.
Proof.
  induction a as [| c a IH]; simpl.
  - now destruct b.
  - now rewrite IH.
Qed.

(** A file written by [to_csv] is loaded by [load_csv] under the table name
    with its spaces replaced. *)
Lemma table_name_file_name (name : string) :
  table_name (file_name name) = Some (replace_space name).
Proof.
  unfold table_name, last4, drop_last4, file_name.
  rewrite length_append. simpl String.length.
  replace (String.length (replace_space name) + 4 - 4)%nat
    with (String.length (replace_space name)) by lia.
  change 4%nat with (String.length ".csv") at 1.
  rewrite substring_suffix, substring_prefix. reflexivity.
Qed.

(** Two tables of one collection can share their file. *)
Example file_name_collision : file_name "heat demand" = file_name "heat_demand".
Proof. reflexivity. Qed.
End CsvNamesFacts.

(** * Further properties of the module *)

(** ** Filling a node dictionary *)
Module RegistrationFacts.
Import NodeDict PyDictFacts NodeDictFacts Registration.

Section Registry.
Context {Node : Type}.
Implicit Types (d : NodeDict.t Node) (k : string) (v : item Node).

Lemma setitem_returns d k v d' :
  __setitem__ d k v = Ok d' -> get d k = ItemNone /\ d' = PyDict.store d k v.
Proof.
  unfold __setitem__. destruct (get d k); intros H; [| discriminate H].
  injection H as <-. auto.
Qed.

Lemma keys_store_absent d k v :
  PyDict.lookup d k = None ->
  PyDict.keys (PyDict.store d k v) = (PyDict.keys d ++ [k])%list.
Proof.
  intros H. rewrite (store_absent d k v H). unfold PyDict.keys.
  now rewrite map_app.
Qed.

(** A registration that goes through leaves every entry that holds a
    node as it is: the key it writes held no node before. *)
Theorem setitem_keeps_nodes d k v d' :
  __setitem__ d k v = Ok d' ->
  forall k' n, PyDict.lookup d k' = Some (ItemNode n) ->
               PyDict.lookup d' k' = Some (ItemNode n).
Proof.
  intros H k' n Hn. apply setitem_returns in H as [Hget ->].
  destruct (string_dec k' k) as [-> | Hne].
  - unfold get in Hget. rewrite Hn in Hget. discriminate Hget.
  - now rewrite lookup_store_other.
Qed.

(** X1.  A key that holds a node rejects every registration -- of another
    node, of the same node, of [None] -- with the [KeyError] whose message
    reads [Key '<key>' already exists. Duplicate keys are not allowed in a
    node dictionary.] *)
Theorem setitem_node_rejects d k n v :
  PyDict.lookup d k = Some (ItemNode n) ->
  __setitem__ d k v
  = Raise (KeyError
             ("Key '" ++ k ++
              "' already exists. Duplicate keys are not allowed in a node dictionary.")).
Proof.
  intros H. rewrite <- duplicate_msg_text. unfold __setitem__, get.
  now rewrite H.
Qed.

(** The keys of a node dictionary stay pairwise distinct, and a
    registration that goes through either keeps the keys as they are (the
    key held [None]) or appends its key at the end. *)
Theorem setitem_keys d k v d' :
  NoDup (PyDict.keys d) ->
  __setitem__ d k v = Ok d' ->
  NoDup (PyDict.keys d') /\
  (PyDict.keys d' = PyDict.keys d \/
   (~ In k (PyDict.keys d) /\ PyDict.keys d' = (PyDict.keys d ++ [k])%list)).
Proof.
  intros Hnd H. apply setitem_returns in H as [_ ->].
  destruct (PyDict.lookup d k) as [old |] eqn:E.
  - rewrite keys_store_present by congruence. auto.
  - pose proof E as Hnew. apply lookup_None_keys in Hnew.
    rewrite (keys_store_absent d k v E). split; [| right; auto].
    apply NoDup_app; [exact Hnd | constructor; [intros [] | constructor] |].
    intros x Hx [<- | []]. contradiction.
Qed.

Lemma setitems_app d (l1 l2 : list (string * item Node)) :
  setitems d (l1 ++ l2) = bind (setitems d l1) (fun d' => setitems d' l2).
Proof.
  revert d. induction l1 as [| [k v] l1 IH]; intros d; simpl; [reflexivity |].
  destruct (__setitem__ d k v); simpl; auto.
Qed.

(** Entries under new, pairwise distinct keys are all taken, in order. *)
Lemma setitems_distinct d (l : list (string * item Node)) :
  NoDup (PyDict.keys l) ->
  (forall k, In k (PyDict.keys l) -> ~ In k (PyDict.keys d)) ->
  setitems d l = Ok (d ++ l)%list.
Proof.
  revert d. induction l as [| [k v] l IH]; intros d Hnd Hnew; simpl.
  - now rewrite app_nil_r.
  - inversion Hnd as [| ? ? Hk Hnd']; subst.
    assert (Habs : PyDict.lookup d k = None).
    { apply lookup_None_keys. apply Hnew. now left. }
    rewrite (setitem_get_None d k v) by (unfold get; now rewrite Habs).
    simpl. rewrite (store_absent d k v Habs).
    rewrite IH; [now rewrite <- app_assoc | exact Hnd' |].
    intros k' Hin Hin'. unfold PyDict.keys in Hin'.
    rewrite map_app in Hin'. apply in_app_or in Hin' as [Hd | [<- | []]].
    + apply (Hnew k'); [now right | exact Hd].
    + contradiction.
Qed.

(** X2.  Registering entries under pairwise distinct keys in an empty node
    dictionary takes them all, and the dictionary then holds exactly these
    entries in the order of their registration. *)
Theorem setitems_fresh (l : list (string * item Node)) :
  NoDup (PyDict.keys l) -> setitems PyDict.empty l = Ok l.
Proof.
  intros Hnd. rewrite setitems_distinct; [reflexivity | exact Hnd |].
  intros k _ [].
Qed.

(** X3.  A run of registrations stops at the first key that already holds
    a node: with nodes under pairwise distinct keys registered first, an
    entry under one of these keys raises the duplicate-key error for that
    key, whatever follows it. *)
Theorem setitems_duplicate (l1 : list (string * Node)) k v
    (l2 : list (string * item Node)) :
  NoDup (map fst l1) ->
  In k (map fst l1) ->
  setitems PyDict.empty (node_entries l1 ++ (k, v) :: l2)
  = Raise (KeyError (duplicate_msg k)).
Proof.
  intros Hnd Hin.
  assert (Hkeys : PyDict.keys (node_entries l1) = map fst l1).
  { unfold PyDict.keys, node_entries. rewrite map_map. reflexivity. }
  rewrite setitems_app.
  rewrite (setitems_distinct PyDict.empty (node_entries l1));
    [| now rewrite Hkeys | intros k0 _ []].
  simpl.
  assert (Hnode : exists n, PyDict.lookup (node_entries l1) k = Some (ItemNode n)).
  { clear Hnd Hkeys. induction l1 as [| [k0 n0] l1 IH]; simpl in *; [contradiction |].
    destruct (String.eqb k0 k) eqn:E; [now exists n0 |].
    apply String.eqb_neq in E. destruct Hin as [-> | Hin]; [contradiction |].
    now apply IH. }
  destruct Hnode as [n Hn].
  now rewrite (setitem_node_present _ k n v Hn).
Qed.

(** X4.  Whatever a run of registrations that goes through adds, the
    entries that held a node before the run hold the same node after it. *)
Theorem setitems_keeps_nodes d (l : list (string * item Node)) d' :
  setitems d l = Ok d' ->
  forall k n, PyDict.lookup d k = Some (ItemNode n) ->
              PyDict.lookup d' k = Some (ItemNode n).
Proof.
  revert d. induction l as [| [k0 v0] l IH]; intros d H k n Hn; simpl in H.
  - now injection H as <-.
  - destruct (__setitem__ d k0 v0) as [d1 |] eqn:E; [| discriminate H].
    simpl in H. apply (IH d1 H).
    now apply (setitem_keeps_nodes d k0 v0 d1 E).
Qed.
End Registry.

Lemma setitem_keeps_nodes_witness :
  PyDict.lookup [("bus", ItemNode 1%nat); ("sink", ItemNode 2%nat)] "bus"
  = Some (ItemNode 1%nat).
Proof.
  apply (setitem_keeps_nodes [("bus", ItemNode 1%nat)] "sink" (ItemNode 2%nat));
    reflexivity.
Defined.

Lemma setitem_node_rejects_witness :
  __setitem__ [("bus", ItemNode 1%nat)] "bus" (ItemNode 1%nat)
  = Raise (KeyError
      "Key 'bus' already exists. Duplicate keys are not allowed in a node dictionary.").
Proof.
  apply (setitem_node_rejects [("bus", ItemNode 1%nat)] "bus" 1%nat). reflexivity.
Defined.

Lemma setitem_keys_witness :
  NoDup (PyDict.keys [("bus", @ItemNone nat); ("sink", ItemNode 2%nat)]) /\
  NoDup (PyDict.keys [("bus", ItemNode 1%nat); ("sink", ItemNode 2%nat);
                      ("grid", ItemNode 3%nat)]).
Proof.
  assert (Hnd : NoDup (PyDict.keys [("bus", @ItemNone nat);
                                    ("sink", ItemNode 2%nat)])).
  { simpl. repeat constructor; simpl; intuition discriminate. }
  split; [exact Hnd |].
  assert (Hnd' : NoDup (PyDict.keys [("bus", ItemNode 1%nat);
                                     ("sink", ItemNode 2%nat)])).
  { exact (proj1 (setitem_keys [("bus", ItemNone); ("sink", ItemNode 2%nat)]
                    "bus" (ItemNode 1%nat) _ Hnd eq_refl)). }
  exact (proj1 (setitem_keys [("bus", ItemNode 1%nat); ("sink", ItemNode 2%nat)]
                  "grid" (ItemNode 3%nat) _ Hnd' eq_refl)).
Defined.

Lemma setitems_fresh_witness :
  setitems PyDict.empty [("bus", ItemNode 1%nat); ("spare", ItemNone);
                         ("sink", ItemNode 2%nat)]
  = Ok [("bus", ItemNode 1%nat); ("spare", ItemNone); ("sink", ItemNode 2%nat)].
Proof.
  apply (setitems_fresh [("bus", ItemNode 1%nat); ("spare", ItemNone);
                         ("sink", ItemNode 2%nat)]).
  simpl. repeat constructor; simpl; intuition discriminate.
Defined.

Lemma setitems_duplicate_witness :
  setitems PyDict.empty
    [("bus", ItemNode 1%nat); ("sink", ItemNode 2%nat);
     ("bus", ItemNode 3%nat); ("grid", ItemNode 4%nat)]
  = Raise (KeyError (duplicate_msg "bus")).
Proof.
  apply (setitems_duplicate [("bus", 1%nat); ("sink", 2%nat)] "bus"
           (ItemNode 3%nat) [("grid", ItemNode 4%nat)]).
  - simpl. repeat constructor; simpl; intuition discriminate.
  - simpl. auto.
Defined.

Lemma setitems_keeps_nodes_witness :
  PyDict.lookup [("bus", ItemNode 1%nat); ("spare", ItemNode 7%nat);
                 ("sink", ItemNode 2%nat)] "bus"
  = Some (ItemNode 1%nat).
Proof.
  apply (setitems_keeps_nodes [("bus", ItemNode 1%nat); ("spare", ItemNone)]
           [("spare", ItemNode 7%nat); ("sink", ItemNode 2%nat)]);
    reflexivity.
Defined.
End RegistrationFacts.

(** ** Initialising the energy system, continued *)
Module InitialiseMore.
Import Scenario CalendarFacts InitialiseFacts MethodFacts.

Section Initialise.
Context {F : Framework} {T : Tables} {X : Externals}.
Implicit Types self : Scenario.t.

Lemma number_of_time_steps_values self (n : Z) :
  number_of_time_steps self = Ok n ->
  (debug self = PyBool true /\ n = 3) \/
  (debug self <> PyBool true /\ (n = 8760 \/ n = 8784)).
Proof.
  unfold number_of_time_steps.
  destruct (is_True (debug self)) eqn:Hd.
  - intros H. injection H as <-. left. split; [now apply is_True_true | reflexivity].
  - apply is_True_false in Hd.
    destruct (Calendar.isleap str_percent (year self)) as [[|] | e]; intros H.
    + injection H as <-. right. auto.
    + injection H as <-. right. auto.
    + destruct e; discriminate H.
Qed.

Lemma initialise_returns self (e : EnergySystem) :
  initialise_energy_system self = Ok e ->
  exists n idx,
    number_of_time_steps self = Ok n /\
    date_range ("1/1/" ++ py_str (year self)) n "H" = Ok idx /\
    e = EnergySystem_new idx.
Proof.
  unfold initialise_energy_system.
  destruct (number_of_time_steps self) as [n |]; simpl; [| discriminate].
  destruct (date_range _ n "H") as [idx |] eqn:E; simpl; [| discriminate].
  intros H. injection H as <-. exists n, idx. auto.
Qed.

(** X5.  Whatever [year] and [debug] hold, an energy system that
    [initialise_energy_system] returns has 3 steps when [debug] is [True]
    and 8760 or 8784 steps otherwise; no other length is ever built, and
    the system is fresh: no nodes, no results. *)
Theorem initialise_steps_range self (e : EnergySystem) :
  initialise_energy_system self = Ok e ->
  entities e = [] /\ es_results e = None /\
  ((debug self = PyBool true /\ Z.of_nat (length (timeindex e)) = 3) \/
   (debug self <> PyBool true /\
    (Z.of_nat (length (timeindex e)) = 8760 \/
     Z.of_nat (length (timeindex e)) = 8784))).
Proof.
  intros H. apply initialise_returns in H as (n & idx & Hn & Hidx & ->).
  apply date_range_periods in Hidx. simpl. rewrite Hidx.
  split; [reflexivity | split; [reflexivity |]].
  now apply number_of_time_steps_values.
Qed.

(** X6.  Only the [TypeError] of the leap-year test is replaced by the
    message about the year: any other exception the test raises (the
    [ValueError] of a malformed format string, say) is passed on as it
    is. *)
Theorem initialise_other_errors_pass self (e : exn) :
  debug self <> PyBool true ->
  Calendar.isleap str_percent (year self) = Raise e ->
  (forall msg, e <> TypeError msg) ->
  initialise_energy_system self = Raise e.
Proof.
  intros Hd He Hne. apply is_True_false in Hd.
  unfold initialise_energy_system, number_of_time_steps. rewrite Hd, He.
  destruct e; try reflexivity. exfalso. now apply (Hne msg).
Qed.

(** X7.  A string year with a conversion specification that accepts the
    operand is not rejected: [year % 4] is then a string, which is not
    equal to 0, so the year counts as a common year and 8760 steps are
    asked of pandas, from the start ['1/1/<year>']. *)
Theorem initialise_formatting_year self (s r : string) :
  debug self <> PyBool true ->
  year self = PyStr s ->
  Calendar.has_percent s = true ->
  str_percent s 4 = Ok r ->
  time_index_steps self 8760.
Proof.
  intros Hd Hy Hp Hr. apply steps_known.
  apply is_True_false in Hd.
  unfold number_of_time_steps, Calendar.isleap. rewrite Hd, Hy. simpl.
  now rewrite Hp, Hr.
Qed.

(** X8.  [initialise_es(year)] with a year other than [None] assigns the
    year first: the scenario has the new year also when the call then
    raises, and in that case its energy system is the one it had. *)
Theorem initialise_es_year_first (year' : pyval) self :
  year' <> PyNone ->
  year (fst (initialise_es year' self)) = year' /\
  (forall x, snd (initialise_es year' self) = Raise x ->
             es (fst (initialise_es year' self)) = es self).
Proof.
  intros Hy. unfold initialise_es, mbind, mret, this, lift, assign.
  destruct year' as [| b | z | s]; [congruence | | |];
    cbn; destruct (initialise_energy_system _); cbn; split;
      try reflexivity; try discriminate; auto.
Qed.

(** X9.  A call of [initialise_es] that returns has replaced the energy
    system by a new one -- no nodes, no results, whatever was there -- and
    with an integer year [y] given and [debug] not [True], the new index has
    8784 steps if [y] is a leap year and 8760 if not, whatever the year of
    the scenario was before. *)
Theorem initialise_es_replaces (y : Z) self self' :
  debug self <> PyBool true ->
  initialise_es (PyInt y) self = (self', Ok tt) ->
  year self' = PyInt y /\
  exists idx,
    es self' = Some (EnergySystem_new idx) /\
    (leap_year y -> Z.of_nat (length idx) = 8784) /\
    (~ leap_year y -> Z.of_nat (length idx) = 8760).
Proof.
  intros Hd H. unfold initialise_es, mbind, mret, this, lift, assign in H.
  cbn in H.
  destruct (initialise_energy_system (set_year self (PyInt y))) as [e |] eqn:E;
    [| discriminate H].
  injection H as <-. split; [reflexivity |].
  pose proof E as E'.
  apply initialise_returns in E' as (n & idx & Hn & Hidx & ->).
  exists idx. split; [reflexivity |].
  apply date_range_periods in Hidx. rewrite Hidx.
  split; intros Hl.
  - rewrite (steps_leap (set_year self (PyInt y)) y Hd eq_refl Hl) in Hn.
    now injection Hn as <-.
  - rewrite (steps_common (set_year self (PyInt y)) y Hd eq_refl Hl) in Hn.
    now injection Hn as <-.
Qed.
End Initialise.

Import Demo.

Lemma initialise_steps_range_witness :
  match initialise_energy_system (Demo.scenario (PyInt 2014) (PyBool true)) with
  | Ok e => entities e = [] /\ Z.of_nat (length (timeindex e)) = 3
  | Raise _ => False
  end.
Proof.
  destruct (initialise_energy_system (Demo.scenario (PyInt 2014) (PyBool true)))
    as [e |] eqn:E; [| vm_compute in E; discriminate E].
  destruct (initialise_steps_range _ e E) as (He & _ & [[_ H] | [Hd _]]).
  - split; [exact He | exact H].
  - exfalso. apply Hd. reflexivity.
Defined.

Lemma initialise_other_errors_pass_witness :
  initialise_energy_system (Demo.scenario (PyStr "%") PyNone)
  = Raise (ValueError "incomplete format").
Proof.
  apply (initialise_other_errors_pass (Demo.scenario (PyStr "%") PyNone)).
  - discriminate.
  - reflexivity.
  - intros msg. discriminate.
Defined.

Lemma initialise_formatting_year_witness :
  @time_index_steps Demo.framework Demo.tables DemoFormats.formatting
    (Demo.scenario (PyStr "%d") PyNone) 8760.
Proof.
  apply (@initialise_formatting_year Demo.framework Demo.tables
           DemoFormats.formatting (Demo.scenario (PyStr "%d") PyNone) "%d" "4").
  - discriminate.
  - reflexivity.
  - reflexivity.
  - reflexivity.
Defined.

Lemma initialise_es_year_first_witness :
  year (fst (initialise_es (PyStr "next") (Demo.scenario (PyInt 2014) PyNone)))
  = PyStr "next" /\
  snd (initialise_es (PyStr "next") (Demo.scenario (PyInt 2014) PyNone))
  = Raise (TypeError "You cannot create an EnergySystem with self.year = next").
Proof.
  split.
  - apply (initialise_es_year_first (PyStr "next")
             (Demo.scenario (PyInt 2014) PyNone)).
    discriminate.
  - vm_compute. reflexivity.
Defined.

Lemma initialise_es_replaces_witness :
  exists idx,
    es (fst (initialise_es (PyInt 2016)
               (set_es (Demo.scenario (PyInt 2014) PyNone) (es ready))))
    = Some (EnergySystem_new idx) /\
    Z.of_nat (length idx) = 8784.
Proof.
  assert (Hd : debug (set_es (Demo.scenario (PyInt 2014) PyNone) (es ready))
               <> PyBool true) by discriminate.
  destruct (initialise_es (PyInt 2016)
              (set_es (Demo.scenario (PyInt 2014) PyNone) (es ready)))
    as [s' r] eqn:E.
  assert (Hr : r = Ok tt).
  { apply (f_equal snd) in E. vm_compute in E. now subst r. }
  subst r.
  destruct (initialise_es_replaces 2016 _ s' Hd E) as (_ & idx & He & Hl & _).
  exists idx. split; [exact He |].
  apply Hl. split; [reflexivity | left; discriminate].
Defined.
End InitialiseMore.

(** ** Adding nodes, continued *)
Module NodesMore.
Import Scenario ScenarioNodes MethodFacts InitialiseFacts.

Section Nodes.
Context {F : Framework} {T : Tables} {X : Externals}.
Implicit Types self : Scenario.t.

Ltac run_add_nodes :=
  unfold add_nodes, add_nodes2solph, create_nodes, initialise_es,
    mbind, this, lift, assign, mret, mraise.

(** X10.  [add_nodes] changes nothing of the scenario but its energy
    system, whether it returns or raises: name, tables, year, debug value,
    model, results and location are as before. *)
Theorem add_nodes_only_es self (nodes : NodeDict.t Node) :
  fst (add_nodes nodes self) = set_es self (es (fst (add_nodes nodes self))).
Proof.
  run_add_nodes. destruct (es self) as [e |] eqn:He; cbn.
  - rewrite He. destruct (es_add e (PyDict.values nodes)); cbn; [reflexivity |].
    rewrite He. rewrite <- He. symmetry. apply set_es_same.
  - destruct (initialise_energy_system self) as [e0 |]; cbn.
    + destruct (es_add e0 (PyDict.values nodes)); reflexivity.
    + symmetry. apply set_es_same.
Qed.

(** X11.  After a call of [add_nodes] that returned, the scenario has an
    energy system, and every further call adds its nodes to that system:
    the index is initialised at most once. *)
Theorem add_nodes_then_add_nodes self (n1 : NodeDict.t Node) self1 :
  add_nodes n1 self = (self1, Ok tt) ->
  exists e1,
    es self1 = Some e1 /\
    forall n2 : NodeDict.t Node,
      add_nodes n2 self1
      = match es_add e1 (PyDict.values n2) with
        | Ok e2 => (set_es self1 (Some e2), Ok tt)
        | Raise x => (self1, Raise x)
        end.
Proof.
  intros H.
  assert (He : exists e1, es self1 = Some e1).
  { revert H. run_add_nodes. destruct (es self) as [e |] eqn:He; cbn.
    - rewrite He. destruct (es_add e (PyDict.values n1)); intros H;
        [| discriminate H].
      injection H as <-. eexists. reflexivity.
    - destruct (initialise_energy_system self) as [e0 |]; cbn;
        [| intros H; discriminate H].
      destruct (es_add e0 (PyDict.values n1)); intros H; [| discriminate H].
      injection H as <-. eexists. reflexivity. }
  destruct He as [e1 He1]. exists e1. split; [exact He1 |].
  intros n2. run_add_nodes. rewrite He1. cbn. rewrite He1.
  destruct (es_add e1 (PyDict.values n2)); reflexivity.
Qed.

(** X12.  A scenario constructed without a year, without an energy system
    and with [debug] other than [True] cannot take nodes: [add_nodes]
    raises the [TypeError] about the year [None] and the scenario stays as
    constructed. *)
Theorem add_nodes_without_year (kw : kwargs) (nodes : NodeDict.t Node) :
  kwargs_get (kw_year kw) PyNone = PyNone ->
  kwargs_get (kw_debug kw) PyNone <> PyBool true ->
  kw_es kw = None ->
  add_nodes nodes (__init__ kw)
  = (__init__ kw,
     Raise (TypeError "You cannot create an EnergySystem with self.year = None")).
Proof.
  intros Hy Hd He. apply is_True_false in Hd.
  destruct kw as [kname ktables kyear kignore kround kmodel kes kdebug].
  cbn in Hy, Hd, He. subst kes.
  run_add_nodes. unfold __init__. cbn.
  unfold initialise_energy_system, number_of_time_steps. cbn.
  rewrite Hd, Hy. reflexivity.
Qed.

(** X13.  With the [create_nodes] of the class itself, which returns
    [None], [add_nodes2solph] never returns.  If the scenario has an energy
    system, or one can be initialised, the call raises the
    [AttributeError] for [None.values]; an energy system initialised on the
    way stays on the scenario. *)
Theorem add_nodes2solph_base self :
  (forall e, es self = Some e ->
   add_nodes2solph create_nodes self
   = (self, Raise (AttributeError "'NoneType' object has no attribute 'values'")))
  /\
  (es self = None ->
   add_nodes2solph create_nodes self
   = match initialise_energy_system self with
     | Ok e0 =>
         (set_es self (Some e0),
          Raise (AttributeError "'NoneType' object has no attribute 'values'"))
     | Raise x => (self, Raise x)
     end).
Proof.
  split.
  - intros e He. run_add_nodes. rewrite He. cbn. now rewrite He.
  - intros He. run_add_nodes. rewrite He. cbn.
    destruct (initialise_energy_system self); reflexivity.
Qed.

(** X14.  With a [create_nodes] that returns a node dictionary and leaves
    the scenario alone, [add_nodes2solph] does what [add_nodes] does with
    that dictionary. *)
Theorem add_nodes2solph_add_nodes (nodes : NodeDict.t Node) self :
  add_nodes2solph (mret (Some nodes)) self = add_nodes nodes self.
Proof.
  run_add_nodes. destruct (es self) as [e |] eqn:He; cbn.
  - reflexivity.
  - destruct (initialise_energy_system self); reflexivity.
Qed.
End Nodes.

Import Demo.

Lemma add_nodes_then_add_nodes_witness :
  exists e1,
    es (fst (add_nodes two_nodes (Demo.scenario (PyInt 2014) (PyBool true))))
    = Some e1 /\
    entities e1 = [NodeDict.ItemNode 1%nat; NodeDict.ItemNode 2%nat].
Proof.
  destruct (add_nodes_then_add_nodes (F:=Demo.framework) (X:=Demo.externals)
              (Demo.scenario (PyInt 2014) (PyBool true)) two_nodes
              (fst (add_nodes (F:=Demo.framework) two_nodes
                      (Demo.scenario (PyInt 2014) (PyBool true)))))
    as (e1 & He1 & _).
  - vm_compute. reflexivity.
  - exists e1. split; [exact He1 |].
    vm_compute in He1. injection He1 as <-. reflexivity.
Defined.

Lemma add_nodes_without_year_witness :
  add_nodes two_nodes
    (__init__ {| kw_name := Some "berlin"; kw_table_collection := None;
                 kw_year := None; kw_ignore_errors := None;
                 kw_round_values := None; kw_model := None; kw_es := None;
                 kw_debug := Some (PyBool false) |})
  = (__init__ {| kw_name := Some "berlin"; kw_table_collection := None;
                 kw_year := None; kw_ignore_errors := None;
                 kw_round_values := None; kw_model := None; kw_es := None;
                 kw_debug := Some (PyBool false) |},
     Raise (TypeError "You cannot create an EnergySystem with self.year = None")).
Proof.
  apply (add_nodes_without_year (F:=Demo.framework) (X:=Demo.externals)
           {| kw_name := Some "berlin"; kw_table_collection := None;
              kw_year := None; kw_ignore_errors := None;
              kw_round_values := None; kw_model := None; kw_es := None;
              kw_debug := Some (PyBool false) |} two_nodes).
  - reflexivity.
  - discriminate.
  - reflexivity.
Defined.

Lemma add_nodes2solph_base_witness :
  add_nodes2solph create_nodes ready
  = (ready, Raise (AttributeError "'NoneType' object has no attribute 'values'"))
  /\
  es (fst (add_nodes2solph create_nodes
             (Demo.scenario (PyInt 2014) (PyBool true))))
  = Some (EnergySystem_new (F:=Demo.framework) [0; 1; 2]).
Proof.
  split.
  - apply (proj1 (add_nodes2solph_base ready)
             (EnergySystem_new (F:=Demo.framework) [0; 1; 2])).
    reflexivity.
  - rewrite (proj2 (add_nodes2solph_base
                      (Demo.scenario (PyInt 2014) (PyBool true))) eq_refl).
    vm_compute. reflexivity.
Defined.
End NodesMore.

(** ** [solve], continued *)
Module SolveMore.
Import Scenario PyDictFacts MethodFacts.

Notation "x <- c ;; k" := (mbind c (fun x => k))
  (at level 61, c at next level, right associativity) : method_scope.

Section Solve.
Context {F : Framework} {T : Tables} {X : Externals}.
Implicit Types self : Scenario.t.

(** *** Steps that leave the inputs and [results] alone *)

Lemma quiet_refl s : quiet s s.
Proof. repeat split. Qed.

Lemma quiet_trans s1 s2 s3 : quiet s1 s2 -> quiet s2 s3 -> quiet s1 s3.
Proof.
  unfold quiet, unchanged_inputs.
  intros (H1 & H1') (H2 & H2'). repeat split; intuition congruence.
Qed.

Lemma keeps_mret {A : Type} (a : A) : keeps_quiet (mret a).
Proof. intros s s' r H. injection H as <- _. apply quiet_refl. Qed.

Lemma keeps_mraise {A : Type} (e : exn) : keeps_quiet (@mraise _ _ A e).
Proof. intros s s' r H. injection H as <- _. apply quiet_refl. Qed.

Lemma keeps_lift {A : Type} (x : result A) : keeps_quiet (lift x).
Proof. intros s s' r H. injection H as <- _. apply quiet_refl. Qed.

Lemma keeps_this : keeps_quiet this.
Proof. intros s s' r H. injection H as <- _. apply quiet_refl. Qed.

Lemma keeps_assign (f : Scenario.t -> Scenario.t) :
  (forall s, quiet s (f s)) -> keeps_quiet (assign f).
Proof. intros Hf s s' r H. injection H as <- _. apply Hf. Qed.

Lemma keeps_mbind {A B : Type} (c : M A) (k : A -> M B) :
  keeps_quiet c -> (forall a, keeps_quiet (k a)) -> keeps_quiet (mbind c k).
Proof.
  intros Hc Hk s s' r. unfold mbind.
  destruct (c s) as [s1 [a | e]] eqn:E; intros H.
  - apply (quiet_trans s s1 s'); [now apply (Hc s s1 (Ok a)) |].
    now apply (Hk a s1 s' r).
  - injection H as <- _. now apply (Hc s s1 (Raise e)).
Qed.

Lemma quiet_set_model s (m : option Model) : quiet s (set_model s m).
Proof. repeat split. Qed.

Lemma quiet_set_es s (e : option EnergySystem) : quiet s (set_es s e).
Proof. repeat split. Qed.

Ltac quiet_steps :=
  repeat first
    [ apply keeps_mbind; [| intros ?]
    | apply keeps_mret | apply keeps_mraise | apply keeps_lift
    | apply keeps_this
    | apply keeps_assign; intros ?;
      first [apply quiet_set_model | apply quiet_set_es | apply quiet_refl]
    | match goal with
      | |- keeps_quiet (match ?x with _ => _ end) => destruct x
      | |- keeps_quiet (if ?b then _ else _) => destruct b
      end ].

Lemma keeps_the_model (attr : string) : keeps_quiet (the_model attr).
Proof. unfold the_model. quiet_steps. Qed.

Lemma keeps_the_results : keeps_quiet the_results.
Proof. unfold the_results. quiet_steps. Qed.

Lemma keeps_results_setitem (key : string) (v : facet) :
  keeps_quiet (results_setitem key v).
Proof.
  unfold results_setitem.
  apply keeps_mbind; [apply keeps_the_results | intros [d |]].
  - apply keeps_assign. intros s. destruct (es s); [apply quiet_set_es |].
    apply quiet_refl.
  - apply keeps_mraise.
Qed.

Lemma keeps_results_getitem (key : string) : keeps_quiet (results_getitem key).
Proof.
  unfold results_getitem.
  apply keeps_mbind; [apply keeps_the_results | intros [d |]].
  - apply keeps_lift.
  - apply keeps_mraise.
Qed.

Lemma keeps_meta_setitem (key : string) (v : metaval) :
  keeps_quiet (meta_setitem key v).
Proof.
  unfold meta_setitem.
  apply keeps_mbind; [apply keeps_results_getitem | intros f].
  destruct f; try apply keeps_mraise. apply keeps_results_setitem.
Qed.

(** *** Methods that assign [results] only when they return *)

Lemma at_return_quiet {A : Type} (c : M A) :
  keeps_quiet c -> results_at_return c.
Proof. intros Hc s s' r H. destruct (Hc s s' r H) as [Hu Hr]. auto. Qed.

Lemma at_return_assign (f : Scenario.t -> Scenario.t) :
  (forall s, unchanged_inputs s (f s)) -> results_at_return (assign f).
Proof.
  intros Hf s s' r H. injection H as <- <-. split; [apply Hf |].
  intros e He. discriminate He.
Qed.

Lemma at_return_mbind {A B : Type} (c : M A) (k : A -> M B) :
  keeps_quiet c -> (forall a, results_at_return (k a)) ->
  results_at_return (mbind c k).
Proof.
  intros Hc Hk s s' r. unfold mbind.
  destruct (c s) as [s1 [a | e]] eqn:E; intros H.
  - destruct (Hc s s1 (Ok a) E) as [Hu Hr].
    destruct (Hk a s1 s' r H) as [Hu' Hr'].
    split.
    + unfold unchanged_inputs in *. repeat split; intuition congruence.
    + intros e He. rewrite (Hr' e He). exact Hr.
  - injection H as <- <-. destruct (Hc s s1 (Raise e) E) as [Hu Hr].
    split; [exact Hu | intros _ _; exact Hr].
Qed.

Ltac solve_steps :=
  repeat (apply at_return_mbind;
          [ first [ apply keeps_lift | apply keeps_this
                  | apply keeps_the_model | apply keeps_results_setitem
                  | apply keeps_meta_setitem | apply keeps_results_getitem
                  | quiet_steps; apply keeps_the_model
                  | quiet_steps ]
          | intros ? ]).

(** X15.  [solve] never touches the inputs of the scenario -- name, tables,
    year, debug value, location -- and it assigns [results] only as its
    last step: when it raises, at whatever point, [results] is as it was. *)
Theorem solve_results_last (with_duals : bool) self self' (r : result unit) :
  solve with_duals self = (self', r) ->
  unchanged_inputs self self' /\
  (forall e, r = Raise e -> results self' = results self).
Proof.
  revert self self' r. change (results_at_return (solve with_duals)).
  unfold solve. solve_steps.
  apply at_return_assign. intros s. repeat split.
Qed.

Ltac step H x s Hx := apply mbind_returns in H as (x & s & Hx & H).

(** What must have gone well for [solve] to return. *)
Lemma solve_returns (with_duals : bool) self self' :
  solve with_duals self = (self', Ok tt) ->
  exists solver path date version,
    cfg_get "general" "solver" = Ok solver /\
    location self = Some path /\
    file_date path = Ok date /\
    get_version = Ok version.
Proof.
  unfold solve. intros H.
  step H solver s0 Hc. apply lift_returns in Hc as [Hcfg ->].
  step H u1 s1 Hduals. destruct u1.
  apply duals_block_returns in Hduals as [mo1 ->].
  step H self1 s1 Ht. apply this_returns in Ht as [-> ->].
  step H u2 s2 Hdebug. destruct u2.
  apply debug_block_returns in Hdebug as [mo2 ->].
  step H m s3 Hm. apply the_model_returns in Hm as [Hmodel ->].
  step H self2 s3 Ht. apply this_returns in Ht as [-> ->].
  step H solved s3 Hs. apply lift_returns in Hs as [Hsolve ->].
  step H u3 s3 Ha. destruct u3. apply assign_returns in Ha. subst s3.
  step H main s3 Hp. apply lift_returns in Hp as [Hmain ->].
  step H u4 s4 Hset. destruct u4.
  apply results_setitem_returns in Hset as (e0 & r0 & He0 & Hr0 & ->).
  step H meta0 s5 Hp. apply lift_returns in Hp as [Hmeta ->].
  step H u5 s5 Hset. destruct u5.
  apply results_setitem_returns in Hset as (e1 & r1 & He1 & Hr1 & ->).
  step H self3 s6 Ht. apply this_returns in Ht as [-> ->].
  step H param s6 Hp. apply lift_returns in Hp as [Hparam ->].
  step H u6 s7 Hset. destruct u6.
  apply results_setitem_returns in Hset as (e2 & r2 & He2 & Hr2 & ->).
  step H self4 s8 Ht. apply this_returns in Ht as [-> ->].
  step H u7 s8 Hset. destruct u7.
  apply results_setitem_returns in Hset as (e3 & r3 & He3 & Hr3 & ->).
  step H self5 s9 Ht. apply this_returns in Ht as [-> ->].
  step H u8 s9 Hset. destruct u8.
  apply meta_setitem_returns in Hset as (e4 & r4 & m4 & He4 & Hr4 & Hl4 & ->).
  step H self6 s10 Ht. apply this_returns in Ht as [-> ->].
  step H date s10 Hdate.
  cbn [location set_es set_model] in Hdate.
  destruct (location self) as [path |] eqn:Hloc; [| discriminate Hdate].
  apply lift_returns in Hdate as [Hdate ->].
  step H u9 s11 Hset. destruct u9.
  apply meta_setitem_returns in Hset as (e5 & r5 & m5 & He5 & Hr5 & Hl5 & ->).
  step H version s12 Hv. apply lift_returns in Hv as [Hversion ->].
  exists solver, path, date, version. auto.
Qed.

(** X16.  A scenario that was not loaded from a file has no location, and
    [solve] cannot return on it: the date of the input file is asked of
    the location.  With [location] [None], [solve] raises, whatever the
    solver does. *)
Theorem solve_needs_location (with_duals : bool) self :
  location self = None ->
  exists e, snd (solve with_duals self) = Raise e.
Proof.
  intros Hloc. destruct (solve with_duals self) as [self' [[] | e]] eqn:E.
  - apply solve_returns in E as (solver & path & date & version & _ & Hp & _).
    rewrite Hloc in Hp. discriminate Hp.
  - now exists e.
Qed.

(** X17.  Without a model, [solve] raises and leaves the scenario exactly
    as it was; no solver runs and nothing is stored. *)
Theorem solve_needs_model (with_duals : bool) self :
  model self = None ->
  exists e, solve with_duals self = (self, Raise e).
Proof.
  intros Hm. unfold solve, mbind, lift, this, the_model, mret, mraise, assign.
  destruct (cfg_get "general" "solver") as [solver |]; [| eexists; reflexivity].
  destruct with_duals; cbn; rewrite ?Hm; cbn; [eexists; reflexivity |].
  destruct (truthy (debug self)); cbn.
  - destruct (extend_basic_path "lp_files"); cbn; rewrite ?Hm;
      eexists; reflexivity.
  - rewrite Hm. eexists. reflexivity.
Qed.
End Solve.

Import Demo.

Lemma solve_results_last_witness :
  unchanged_inputs ready solved /\
  results (fst (solve true (Demo.scenario (PyInt 2014) PyNone))) = None.
Proof.
  split.
  - apply (solve_results_last false ready solved (Ok tt)).
    vm_compute. reflexivity.
  - destruct (solve true (Demo.scenario (PyInt 2014) PyNone)) as [s' r] eqn:E.
    assert (Hr : exists e, r = Raise e).
    { apply (f_equal snd) in E. vm_compute in E. subst r. eexists. reflexivity. }
    destruct Hr as [e ->].
    exact (proj2 (solve_results_last true _ s' (Raise e) E) e eq_refl).
Defined.

Lemma solve_needs_location_witness :
  exists e,
    snd (solve false (set_model (set_es (Demo.scenario (PyInt 2014) PyNone)
                                   (es ready)) (Some 0%nat)))
    = Raise e.
Proof.
  apply (solve_needs_location false
           (set_model (set_es (Demo.scenario (PyInt 2014) PyNone) (es ready))
              (Some 0%nat))).
  reflexivity.
Defined.

Lemma solve_needs_model_witness :
  exists e,
    solve false (Demo.scenario (PyInt 2014) PyNone)
    = (Demo.scenario (PyInt 2014) PyNone, Raise e).
Proof.
  apply (solve_needs_model false (Demo.scenario (PyInt 2014) PyNone)).
  reflexivity.
Defined.

(** On the demo scenario without a location the solver has run and the
    four facets are stored when [solve] raises. *)
Example solve_without_location :
  snd (solve false (set_model (set_es (Demo.scenario (PyInt 2014) PyNone)
                                 (es ready)) (Some 0%nat)))
  = Raise (TypeError
      "stat: path should be string, bytes, os.PathLike or integer, not NoneType").
Proof. vm_compute. reflexivity. Qed.
End SolveMore.

(** ** The completeness check, continued *)
Module CheckTableMore.
Import Scenario CheckTableFacts PyDictFacts.

Section CheckTable.
Context {F : Framework} {T : Tables} {X : Externals}.
Implicit Types (df : Frame.DataFrame Label Value) (self : Scenario.t).

(** Checking a table that is not in the collection raises the
    [KeyError] of the dictionary, carrying the table name. *)
Theorem check_table_unknown self (table_name : string) :
  ~ In table_name (PyDict.keys (table_collection self)) ->
  check_table self table_name = Raise (KeyError table_name).
Proof.
  intros Hn. apply lookup_None_keys in Hn.
  unfold check_table, PyDict.getitem. now rewrite Hn.
Qed.

Lemma select_cons df (l l0 : Label) (cells : list (Frame.cell Value)) :
  Frame.select label_eqb ((l0, cells) :: df) l
  = if label_eqb l0 l
    then (l0, cells) :: Frame.select label_eqb df l
    else Frame.select label_eqb df l.
Proof. reflexivity. Qed.

Lemma select_present df (l : Label) :
  In l (Frame.columns df) -> Frame.select label_eqb df l <> [].
Proof.
  induction df as [| [l0 cells] df IH]; simpl; [contradiction |].
  intros [-> | Hin].
  - replace (label_eqb l l) with true by (symmetry; now apply label_eqb_eq).
    discriminate.
  - destruct (label_eqb l0 l); [discriminate | now apply IH].
Qed.

(** A label that occurs twice selects at least two columns. *)
Lemma repeated_label df :
  ~ NoDup (Frame.columns df) ->
  exists l, In l (Frame.columns df) /\
            (2 <= length (Frame.select label_eqb df l))%nat.
Proof.
  induction df as [| [l0 cells] df IH]; intros Hnd.
  - exfalso. apply Hnd. constructor.
  - destruct (in_dec label_eq_dec l0 (Frame.columns df)) as [Hin | Hnotin].
    + exists l0. split; [now left |].
      rewrite select_cons.
      replace (label_eqb l0 l0) with true by (symmetry; now apply label_eqb_eq).
      pose proof (select_present df l0 Hin) as Hne.
      destruct (Frame.select label_eqb df l0); [congruence | simpl; lia].
    + destruct IH as (l & Hl & Hlen).
      { intros Hnd'. apply Hnd. now constructor. }
      exists l. split; [now right |].
      rewrite select_cons. destruct (label_eqb l0 l); simpl; lia.
Qed.

(** The loop over labels of the table ends in pandas' error as soon as one
    of them is carried by two columns. *)
Lemma null_columns_repeated df (cols c : list Label) :
  (forall l, In l cols -> In l (Frame.columns df)) ->
  (exists l, In l cols /\ (2 <= length (Frame.select label_eqb df l))%nat) ->
  null_columns df cols c = Raise (ValueError Frame.ambiguous_msg).
Proof.
  revert c. induction cols as [| l0 cols IH]; intros c Hsub (l & Hin & Hlen).
  - contradiction.
  - simpl. unfold Frame.column_isnull_any.
    pose proof (select_present df l0 (Hsub l0 (or_introl eq_refl))) as Hne.
    destruct (Frame.select label_eqb df l0) as [| [l1 cells1] [| col2 rest]] eqn:E.
    + congruence.
    + simpl. apply IH; [intros l' Hl'; apply Hsub; now right |].
      destruct Hin as [<- | Hin].
      * rewrite E in Hlen. simpl in Hlen. lia.
      * now exists l.
    + reflexivity.
Qed.

(** X18.  A table with a missing value and a column label that occurs more
    than once always fails the check with pandas' own [ValueError] about
    the truth value of a Series; the message about the table is never
    produced for such a table. *)
Theorem check_table_repeated_label self (table_name : string) df :
  PyDict.lookup (table_collection self) table_name = Some df ->
  has_missing df ->
  ~ NoDup (Frame.columns df) ->
  check_table self table_name = Raise (ValueError Frame.ambiguous_msg).
Proof.
  intros Hdf Hm Hnd. unfold check_table, PyDict.getitem. rewrite Hdf. simpl.
  apply isnull_values_any_missing in Hm. rewrite Hm.
  rewrite (null_columns_repeated df (Frame.columns df) []); [reflexivity | auto |].
  destruct (repeated_label df Hnd) as (l & Hl & Hlen). now exists l.
Qed.
End CheckTable.

Import Demo.

Lemma check_table_unknown_witness :
  check_table (scenario_with_tables [("demand", gaps)]) "volatile_source"
  = Raise (KeyError "volatile_source").
Proof.
  apply (check_table_unknown (scenario_with_tables [("demand", gaps)])).
  simpl. intros [H | []]. discriminate H.
Defined.

Lemma check_table_repeated_label_witness :
  check_table
    (scenario_with_tables
       [("demand", [("a", [Some 1]); ("b", [None]); ("a", [Some 2])])])
    "demand"
  = Raise (ValueError Frame.ambiguous_msg).
Proof.
  apply (check_table_repeated_label
           (scenario_with_tables
              [("demand", [("a", [Some 1]); ("b", [None]); ("a", [Some 2])])])
           "demand" [("a", [Some 1]); ("b", [None]); ("a", [Some 2])]).
  - reflexivity.
  - exists "b", [None]. simpl. auto.
  - intros Hnd. inversion Hnd as [| ? ? Hnotin _]. apply Hnotin. simpl. auto.
Defined.
End CheckTableMore.

(** ** The file names of a csv-collection, continued *)
Module CsvNamesMore.
Import CsvNames CsvNamesFacts Spaces.

Lemma substring_all (m : nat) (s : string) :
  (String.length s <= m)%nat -> substring 0 m s = s.
Proof.
  revert m. induction s as [| c s IH]; intros m Hm.
  - now destruct m.
  - destruct m as [| m]; simpl in *; [lia |]. rewrite IH by lia. reflexivity.
Qed.

(** A slice up to [k] and the slice from [k] on make up the string. *)
Lemma substring_split (k m : nat) (s : string) :
  (String.length s <= k + m)%nat ->
  substring 0 k s ++ substring k m s = s.
Proof.
  revert k. induction s as [| c s IH]; intros k Hk.
  - destruct k, m; reflexivity.
  - destruct k as [| k].
    + simpl (substring 0 0 _). rewrite substring_all by (simpl in *; lia).
      now destruct m.
    + simpl. rewrite IH by (simpl in *; lia). reflexivity.
Qed.

Lemma slices_rejoin (file : string) : drop_last4 file ++ last4 file = file.
Proof. unfold drop_last4, last4. apply substring_split. lia. Qed.

(** A file is taken exactly when its name is a table name followed by
    [.csv]. *)
Lemma table_name_suffix (file name : string) :
  table_name file = Some name <-> file = name ++ ".csv".
Proof.
  unfold table_name. split.
  - destruct (String.eqb (last4 file) ".csv") eqn:E; [| discriminate].
    intros H. injection H as <-. apply String.eqb_eq in E.
    rewrite <- E. symmetry. apply slices_rejoin.
  - intros ->. unfold last4, drop_last4.
    rewrite length_append. simpl String.length.
    replace (String.length name + 4 - 4)%nat with (String.length name) by lia.
    change 4%nat with (String.length ".csv") at 1.
    rewrite substring_suffix, substring_prefix. reflexivity.
Qed.

(** X19.  [load_csv] takes a file exactly when its name ends in [.csv],
    and the table name is the file name without these four characters: two
    files never give the same table name, a file called [.csv] is loaded
    under the empty name, and a name of fewer than four characters is
    skipped. *)
Theorem table_name_iff (file name : string) :
  (table_name file = Some name <-> file = name ++ ".csv") /\
  (forall file', table_name file' = Some name ->
                 table_name file = Some name -> file' = file) /\
  ((String.length file < 4)%nat -> table_name file = None).
Proof.
  split; [apply table_name_suffix | split].
  - intros file' H' H. apply table_name_suffix in H', H. congruence.
  - intros Hlen. destruct (table_name file) as [n |] eqn:E; [| reflexivity].
    apply table_name_suffix in E. subst file.
    rewrite length_append in Hlen. simpl in Hlen. lia.
Qed.

Lemma table_name_iff_witness :
  table_name "demand.csv" = Some "demand" /\
  table_name ".csv" = Some "" /\
  table_name "csv" = None.
Proof.
  split; [| split].
  - apply (proj1 (table_name_iff "demand.csv" "demand")). reflexivity.
  - apply (proj1 (table_name_iff ".csv" "")). reflexivity.
  - apply (proj2 (proj2 (table_name_iff "csv" ""))). simpl. lia.
Defined.

Lemma replace_space_fixed (name : string) :
  replace_space name = name <-> has_space name = false.
Proof.
  induction name as [| c name IH]; simpl; [tauto |].
  destruct (Ascii.eqb c " ") eqn:E; simpl.
  - apply Ascii.eqb_eq in E. subst c. split; intros H; discriminate H.
  - rewrite <- IH. split; intros H; [now injection H | now rewrite H].
Qed.

Lemma append_cancel_r (a b c : string) : a ++ c = b ++ c -> a = b.
Proof.
  revert b. induction a as [| x a IH]; intros [| y b] H; simpl in H.
  - reflexivity.
  - apply (f_equal String.length) in H. simpl in H.
    rewrite length_append in H. lia.
  - apply (f_equal String.length) in H. simpl in H.
    rewrite length_append in H. lia.
  - injection H as -> H. f_equal. now apply IH.
Qed.


(** The file names [to_csv] writes have no space in them, so the
    table names of a loaded csv-collection written by [to_csv] have none;
    replacing the spaces keeps the length and changes nothing in a name that
    was already written once. *)
Theorem replace_space_normal (name : string) :
  has_space (replace_space name) = false /\
  String.length (replace_space name) = String.length name /\
  replace_space (replace_space name) = replace_space name.
Proof.
  assert (H : has_space (replace_space name) = false).
  { induction name as [| c name IH]; simpl; [reflexivity |].
    destruct (Ascii.eqb c " ") eqn:E; simpl; [exact IH |].
    now rewrite E. }
  split; [exact H | split].
  - clear H. induction name as [| c name IH]; simpl; [reflexivity |].
    now rewrite IH.
  - now apply replace_space_fixed.
Qed.

(** Two tables are written to the same file exactly when their names
    agree up to spaces and underscores in the same places -- that is, when
    replacing the spaces makes them equal. *)
Theorem file_name_shared (n1 n2 : string) :
  file_name n1 = file_name n2 <-> replace_space n1 = replace_space n2.
Proof.
  unfold file_name. split; [apply append_cancel_r | now intros ->].
Qed.
End CsvNamesMore.

(** ** Paths *)
Module PathsFacts.
Import Paths.

Lemma split_last_no_sep (p : string) :
  has_sep p = false -> split_last p = (EmptyString, p).
Proof.
  induction p as [| c p IH]; simpl; [reflexivity |].
  intros H. apply orb_false_iff in H as [Hc Hp].
  rewrite (IH Hp), Hc. reflexivity.
Qed.

Lemma split_last_rejoin (p : string) :
  fst (split_last p) ++ snd (split_last p) = p.
Proof.
  induction p as [| c p IH]; simpl; [reflexivity |].
  destruct (split_last p) as [[| h0 head] tail]; simpl in *.
  - destruct (is_sep c); simpl; now rewrite IH.
  - now rewrite IH.
Qed.

Lemma split_last_tail (p : string) : has_sep (snd (split_last p)) = false.
Proof.
  induction p as [| c p IH]; simpl; [reflexivity |].
  destruct (split_last p) as [[| h0 head] tail]; simpl in *.
  - destruct (is_sep c) eqn:E; simpl; [exact IH | now rewrite E].
  - exact IH.
Qed.

(** The head ends where the last separator is. *)
Lemma split_last_at_sep (dir base : string) :
  has_sep base = false ->
  split_last (dir ++ String "/" base) = (dir ++ "/", base).
Proof.
  intros Hb. induction dir as [| c dir IH]; simpl.
  - now rewrite (split_last_no_sep base Hb).
  - rewrite IH. destruct dir; reflexivity.
Qed.

Lemma rstrip_sep_after (d0 : string) (c : ascii) (s : string) :
  is_sep c = false ->
  rstrip_sep (d0 ++ String c s) = d0 ++ String c (rstrip_sep s).
Proof.
  intros Hc. induction d0 as [| x d0 IH]; simpl.
  - rewrite Hc. now destruct (rstrip_sep s).
  - rewrite IH. now destruct d0.
Qed.

Lemma all_sep_after (d0 : string) (c : ascii) (s : string) :
  is_sep c = false -> all_sep (d0 ++ String c s) = false.
Proof.
  intros Hc. induction d0 as [| x d0 IH]; simpl.
  - now rewrite Hc.
  - rewrite IH. apply andb_false_r.
Qed.

(** A head is what is left after stripping, followed by separators. *)
Lemma rstrip_sep_rejoin (head : string) :
  exists seps, all_sep seps = true /\ head = rstrip_sep head ++ seps.
Proof.
  induction head as [| c head (seps & Hs & IH)]; simpl.
  - now exists "".
  - destruct (rstrip_sep head) as [| r0 r] eqn:E.
    + destruct (is_sep c) eqn:Hc.
      * exists (String c head). simpl. rewrite Hc. simpl in IH. subst head.
        now rewrite Hs.
      * exists seps. simpl in IH. subst head. auto.
    + exists seps. split; [exact Hs |]. simpl in IH |- *. congruence.
Qed.

Lemma all_sep_rstrip (head : string) :
  all_sep head = true -> rstrip_sep head = "".
Proof.
  induction head as [| c head IH]; simpl; [reflexivity |].
  intros H. apply andb_true_iff in H as [Hc Hh].
  now rewrite (IH Hh), Hc.
Qed.

(** X21.  Whatever the file name, [dump_es] and [restore_es] lose nothing
    of it: the name is the directory part they pass on, then separators,
    then the file part they pass on, and the file part never contains a
    separator. *)
Theorem filename_split (filename : string) :
  has_sep (last_component filename) = false /\
  exists seps,
    all_sep seps = true /\
    filename = dirname filename ++ seps ++ last_component filename.
Proof.
  split; [apply split_last_tail |].
  unfold dirname, last_component.
  pose proof (split_last_rejoin filename) as Hjoin.
  destruct (split_last filename) as [head tail]. simpl in *.
  destruct (negb (String.eqb head "") && negb (all_sep head)) eqn:E.
  - destruct (rstrip_sep_rejoin head) as (seps & Hs & Hh).
    exists seps. split; [exact Hs |].
    rewrite <- NodeDictFacts.append_assoc, <- Hh. now symmetry.
  - exists "". split; [reflexivity |]. simpl. now symmetry.
Qed.

(** For a file name [dir/base] -- [dir] not ending in a separator, no
    separator in [base] -- the directory part is [dir] and the file part is
    [base]. *)
Lemma filename_dir_base (d0 : string) (c : ascii) (base : string) :
  is_sep c = false ->
  has_sep base = false ->
  dirname (d0 ++ String c (String "/" base)) = d0 ++ String c "" /\
  last_component (d0 ++ String c (String "/" base)) = base.
Proof.
  intros Hc Hb. unfold dirname, last_component.
  pose proof (split_last_at_sep (d0 ++ String c "") base Hb) as H.
  rewrite !NodeDictFacts.append_assoc in H. simpl in H. rewrite H. simpl.
  split; [| reflexivity].
  rewrite (all_sep_after d0 c "/" Hc).
  rewrite (rstrip_sep_after d0 c "/" Hc). simpl.
  destruct (String.eqb (d0 ++ String c "/") "") eqn:E; [| reflexivity].
  apply String.eqb_eq in E. destruct d0; discriminate E.
Qed.

(** A file name without a separator has the empty directory part and is
    its own file part; a file name that ends in a separator has the empty
    file part. *)
Lemma filename_edges (p : string) :
  (has_sep p = false -> dirname p = "" /\ last_component p = p) /\
  last_component (p ++ "/") = "".
Proof.
  split.
  - intros H. unfold dirname, last_component.
    rewrite (split_last_no_sep p H). auto.
  - unfold last_component.
    pose proof (split_last_at_sep p "" eq_refl) as H. now rewrite H.
Qed.

Example dirname_root : dirname "/dump.oemof" = "/".
Proof. reflexivity. Qed.

Example dirname_double : dirname "results//dump.oemof" = "results".
Proof. reflexivity. Qed.
End PathsFacts.

(** ** Storing and restoring the energy system *)
Module StoreFacts.
Import Scenario ScenarioStore Paths PathsFacts MethodFacts.

Section Store.
Context {F : Framework} {T : Tables} {X : Externals} {S : Storage}.
Implicit Types self : Scenario.t.

(** X22.  [dump_es] on a file name [dir/base] -- [dir] not ending in a
    separator, no separator in [base] -- dumps the energy system in the
    directory [dir] under the file name [base], and leaves the scenario as
    it is. *)
Theorem dump_es_dir_base self (e : EnergySystem) (d0 : string) (c : ascii)
    (base : string) :
  es self = Some e ->
  is_sep c = false ->
  has_sep base = false ->
  dump_es (d0 ++ String c (String "/" base)) self
  = (self, es_dump e (d0 ++ String c "") base).
Proof.
  intros He Hc Hb. unfold dump_es, mbind, this, lift.
  destruct (filename_dir_base d0 c base Hc Hb) as [-> ->].
  now rewrite He.
Qed.

(** [dump_es] on a file name without a separator dumps under that
    name with the empty string as directory; on a file name that ends in a
    separator it dumps under the empty file name. *)
Theorem dump_es_edges self (e : EnergySystem) (p : string) :
  es self = Some e ->
  (has_sep p = false -> dump_es p self = (self, es_dump e "" p)) /\
  dump_es (p ++ "/") self = (self, es_dump e (dirname (p ++ "/")) "").
Proof.
  intros He. destruct (filename_edges p) as [Hbare Hslash]. split.
  - intros Hp. destruct (Hbare Hp) as [Hd Hl].
    unfold dump_es, mbind, this, lift. now rewrite Hd, Hl, He.
  - unfold dump_es, mbind, this, lift. now rewrite Hslash, He.
Qed.

(** X23.  When [restore_es] returns, the scenario has an energy system --
    the restored one -- whose results dictionary has an entry ['main'], and
    [results] of the scenario is that entry.  When it raises, [results] is
    as it was.  Nothing else of the scenario changes either way. *)
Theorem restore_es_results (filename : string) self self' (r : result unit) :
  restore_es filename self = (self', r) ->
  unchanged_inputs self self' /\
  model self' = model self /\
  (r = Ok tt ->
   exists e rs main,
     es self' = Some e /\ es_results e = Some rs /\
     PyDict.lookup rs "main" = Some main /\ results self' = Some main) /\
  (forall x, r = Raise x -> results self' = results self).
Proof.
  unfold restore_es, mbind, this, lift, assign, mret, mraise,
    results_getitem, the_results.
  destruct (es self) as [e0 |] eqn:He; cbn; rewrite ?He; cbn.
  - destruct (es_restore e0 _ _) as [e1 |]; cbn.
    + destruct (es_results e1) as [rs |] eqn:Hrs; cbn.
      * unfold PyDict.getitem.
        destruct (PyDict.lookup rs "main") as [main |] eqn:Hm; cbn;
          intros H; injection H as <- <-; cbn.
        -- repeat split; try discriminate.
           intros _. exists e1, rs, main. auto.
        -- repeat split; try discriminate.
      * intros H; injection H as <- <-; cbn. repeat split; try discriminate.
    + intros H; injection H as <- <-; cbn. repeat split; try discriminate.
  - destruct (es_restore EnergySystem_default _ _) as [e1 |]; cbn.
    + destruct (es_results e1) as [rs |] eqn:Hrs; cbn.
      * unfold PyDict.getitem.
        destruct (PyDict.lookup rs "main") as [main |] eqn:Hm; cbn;
          intros H; injection H as <- <-; cbn.
        -- repeat split; try discriminate.
           intros _. exists e1, rs, main. auto.
        -- repeat split; try discriminate.
      * intros H; injection H as <- <-; cbn. repeat split; try discriminate.
    + intros H; injection H as <- <-; cbn. repeat split; try discriminate.
Qed.

(** On a scenario without an energy system, [restore_es] restores
    into a new default energy system; that system stays on the scenario
    when restoring then raises. *)
Theorem restore_es_without_es (filename : string) self (x : exn) :
  es self = None ->
  es_restore EnergySystem_default (dirname filename) (last_component filename)
  = Raise x ->
  restore_es filename self
  = (set_es self (Some EnergySystem_default), Raise x).
Proof.
  intros He Hx.
  unfold restore_es, mbind, this, lift, assign, mret, mraise.
  rewrite He. cbn. now rewrite Hx.
Qed.
End Store.

Import Demo.

Lemma dump_es_dir_base_witness :
  dump_es (S:=DemoStore.storage) "results/berlin/2014.oemof" ready
  = (ready, Ok tt).
Proof.
  apply (dump_es_dir_base (S:=DemoStore.storage) ready
           (EnergySystem_new (F:=Demo.framework) [0; 1; 2])
           "results/berli" "n" "2014.oemof"); reflexivity.
Defined.

Lemma dump_es_edges_witness :
  dump_es (S:=DemoStore.storage) "2014.oemof" ready = (ready, Ok tt).
Proof.
  apply (proj1 (dump_es_edges (S:=DemoStore.storage) ready
                  (EnergySystem_new (F:=Demo.framework) [0; 1; 2])
                  "2014.oemof" eq_refl)).
  reflexivity.
Defined.

Lemma restore_es_results_witness :
  results (fst (restore_es (S:=DemoStore.storage) "results/2014.oemof"
                  (Demo.scenario (PyInt 2014) PyNone)))
  = Some (FResults 7%nat)
  /\
  results (fst (restore_es (S:=DemoStore.storage) "results/" ready)) = None.
Proof.
  split.
  - destruct (restore_es (S:=DemoStore.storage) "results/2014.oemof"
                (Demo.scenario (PyInt 2014) PyNone)) as [s' r] eqn:E.
    assert (Hr : r = Ok tt).
    { apply (f_equal snd) in E. vm_compute in E. now subst r. }
    destruct (restore_es_results _ _ s' r E) as (_ & _ & Hok & _).
    destruct (Hok Hr) as (e & rs & main & He & Hrs & Hm & Hres).
    apply (f_equal fst) in E. vm_compute in E. subst s'.
    vm_compute. reflexivity.
  - destruct (restore_es (S:=DemoStore.storage) "results/" ready)
      as [s' r] eqn:E.
    assert (Hr : exists x, r = Raise x).
    { apply (f_equal snd) in E. vm_compute in E. subst r. eexists. reflexivity. }
    destruct Hr as [x Hx].
    destruct (restore_es_results _ _ s' r E) as (_ & _ & _ & Hraise).
    exact (Hraise x Hx).
Defined.

Lemma restore_es_without_es_witness :
  restore_es (S:=DemoStore.storage) "results/"
    (Demo.scenario (PyInt 2014) PyNone)
  = (set_es (Demo.scenario (PyInt 2014) PyNone)
       (Some (EnergySystem_default (Storage:=DemoStore.storage))),
     Raise (OtherError "Is a directory")).
Proof.
  apply (restore_es_without_es (S:=DemoStore.storage) "results/"
           (Demo.scenario (PyInt 2014) PyNone)); reflexivity.
Defined.
End StoreFacts.

(** ** Loading the tables *)
Module LoadFacts.
Import Scenario ScenarioFiles PyDictFacts MethodFacts CsvNamesMore.

Section Load.
Context {F : Framework} {T : Tables} {X : Externals} {D : Files}.
Implicit Types self : Scenario.t.

(** What the loop has done when it returns: every entry with a table name
    was read and sits in the collection under its name, the other names
    read as before, and only the collection changed. *)
Lemma load_each_returns {A : Type} (name_of : A -> option string)
    (read : A -> result (Frame.DataFrame Label Value)) (entries : list A)
    self self' :
  (forall a b n, name_of a = Some n -> name_of b = Some n -> a = b) ->
  load_each name_of read entries self = (self', Ok tt) ->
  self' = set_table_collection self (table_collection self') /\
  (forall a n, In a entries -> name_of a = Some n ->
     exists df, read a = Ok df /\
                PyDict.lookup (table_collection self') n = Some df) /\
  (forall n, (forall a, In a entries -> name_of a <> Some n) ->
     PyDict.lookup (table_collection self') n
     = PyDict.lookup (table_collection self) n).
Proof.
  intros Hinj. revert self.
  induction entries as [| a0 rest IH]; intros self H.
  - injection H as <-. repeat split.
    + now destruct self.
    + intros a n [].
  - simpl in H. apply mbind_returns in H as ([] & s1 & H0 & H).
    destruct (IH s1 H) as (Hframe & Hread & Hother). clear IH.
    assert (H1 : s1 = set_table_collection self (table_collection s1) /\
                 match name_of a0 with
                 | Some n0 =>
                     exists df0, read a0 = Ok df0 /\
                       table_collection s1
                       = PyDict.store (table_collection self) n0 df0
                 | None => table_collection s1 = table_collection self
                 end).
    { destruct (name_of a0) as [n0 |].
      - apply mbind_returns in H0 as (df0 & s0 & Hr & H0).
        apply lift_returns in Hr as [Hr ->].
        apply assign_returns in H0. subst s1. split; [reflexivity |].
        now exists df0.
      - injection H0 as <-. split; [now destruct self | reflexivity]. }
    destruct H1 as [Hs1 Hstep].
    split; [| split].
    + rewrite Hframe. rewrite Hs1. reflexivity.
    + intros a n Hin Hn.
      destruct (existsb (names_entry name_of n) rest) eqn:Ex.
      * apply existsb_exists in Ex as (b & Hb & Hnb).
        unfold names_entry in Hnb.
        destruct (name_of b) as [nb |] eqn:Eb; [| discriminate Hnb].
        apply String.eqb_eq in Hnb. subst nb.
        assert (b = a) by now apply (Hinj b a n). subst b.
        now apply Hread.
      * assert (Hnone : forall b, In b rest -> name_of b <> Some n).
        { intros b Hb Hbn.
          assert (Hex : existsb (names_entry name_of n) rest = true).
          { apply existsb_exists. exists b. split; [exact Hb |].
            unfold names_entry. rewrite Hbn. apply String.eqb_refl. }
          rewrite Hex in Ex. discriminate Ex. }
        destruct Hin as [<- | Hin]; [| exfalso; now apply (Hnone a)].
        rewrite (Hother n Hnone). rewrite Hn in Hstep.
        destruct Hstep as (df0 & Hr0 & Htc). exists df0. split; [exact Hr0 |].
        rewrite Htc. apply lookup_store_same.
    + intros n Hnone. rewrite (Hother n).
      * destruct (name_of a0) as [n0 |] eqn:E0.
        -- destruct Hstep as (df0 & _ & ->).
           apply lookup_store_other. intros ->.
           apply (Hnone a0); [now left | exact E0].
        -- now rewrite Hstep.
      * intros b Hb. apply Hnone. now right.
Qed.

(** The loop never touches anything but the collection. *)
Lemma load_each_frame {A : Type} (name_of : A -> option string)
    (read : A -> result (Frame.DataFrame Label Value)) (entries : list A)
    self :
  fst (load_each name_of read entries self)
  = set_table_collection self
      (table_collection (fst (load_each name_of read entries self))).
Proof.
  revert self. induction entries as [| a0 rest IH]; intros self.
  - simpl. now destruct self.
  - simpl. unfold mbind at 1.
    destruct (name_of a0) as [n0 |].
    + unfold mbind at 1. unfold lift at 1. cbn.
      destruct (read a0) as [df0 |]; cbn.
      * rewrite IH at 1. reflexivity.
      * now destruct self.
    + cbn. apply IH.
Qed.

Lemma table_name_injective (a b n : string) :
  CsvNames.table_name a = Some n -> CsvNames.table_name b = Some n -> a = b.
Proof.
  intros Ha Hb. apply table_name_suffix in Ha, Hb. congruence.
Qed.

(** X24.  When [load_csv] returns, the location of the scenario is the
    directory; every file of the directory whose name ends in [.csv] was
    read and is in the collection under its name without the ending; and
    every name that is not a csv file of the directory holds the table it
    held before: loading adds to the collection, it does not start a new
    one. *)
Theorem load_csv_returns (path : string) self self' :
  load_csv path self = (self', Ok tt) ->
  exists files,
    listdir path = Ok files /\
    location self' = Some path /\
    (forall table, In (table ++ ".csv") files ->
       exists df, read_csv (path_join path (table ++ ".csv")) = Ok df /\
                  PyDict.lookup (table_collection self') table = Some df) /\
    (forall table, ~ In (table ++ ".csv") files ->
       PyDict.lookup (table_collection self') table
       = PyDict.lookup (table_collection self) table).
Proof.
  unfold load_csv. intros H.
  apply mbind_returns in H as ([] & s0 & Ha & H).
  apply assign_returns in Ha. subst s0.
  apply mbind_returns in H as (files & s1 & Hl & H).
  apply lift_returns in Hl as [Hl ->].
  apply load_each_returns in H as (Hframe & Hread & Hother);
    [| exact table_name_injective].
  exists files. split; [exact Hl |]. split; [now rewrite Hframe |]. split.
  - intros table Hin.
    apply (Hread (table ++ ".csv") table Hin). now apply table_name_suffix.
  - intros table Hnot. rewrite (Hother table); [reflexivity |].
    intros file Hin Hname. apply table_name_suffix in Hname. subst file.
    contradiction.
Qed.

(** X25.  When [load_excel] returns, the location of the scenario is the
    workbook; every sheet was parsed and is in the collection under the
    name of the sheet; every name that is not a sheet holds the table it
    held before. *)
Theorem load_excel_returns (filename : string) self self' :
  load_excel filename self = (self', Ok tt) ->
  exists sheets,
    excel_sheet_names filename = Ok sheets /\
    location self' = Some filename /\
    (forall sheet, In sheet sheets ->
       exists df, excel_parse filename sheet = Ok df /\
                  PyDict.lookup (table_collection self') sheet = Some df) /\
    (forall table, ~ In table sheets ->
       PyDict.lookup (table_collection self') table
       = PyDict.lookup (table_collection self) table).
Proof.
  unfold load_excel. intros H.
  apply mbind_returns in H as ([] & s0 & Ha & H).
  apply assign_returns in Ha. subst s0.
  apply mbind_returns in H as (sheets & s1 & Hl & H).
  apply lift_returns in Hl as [Hl ->].
  apply load_each_returns in H as (Hframe & Hread & Hother);
    [| intros a b n Ha Hb; congruence].
  exists sheets. split; [exact Hl |]. split; [now rewrite Hframe |]. split.
  - intros sheet Hin. now apply (Hread sheet sheet Hin).
  - intros table Hnot. rewrite (Hother table); [reflexivity |].
    intros sheet Hin Hname. injection Hname as ->. contradiction.
Qed.

(** X26.  Both loaders assign the location before they read anything: the
    scenario has the new location also when the directory cannot be
    listed, the workbook cannot be opened or a table cannot be read; and
    whatever happens, nothing but the location and the collection
    changes. *)
Theorem load_sets_location (path : string) self :
  (location (fst (load_csv path self)) = Some path /\
   fst (load_csv path self)
   = set_table_collection (set_location self (Some path))
       (table_collection (fst (load_csv path self)))) /\
  (location (fst (load_excel path self)) = Some path /\
   fst (load_excel path self)
   = set_table_collection (set_location self (Some path))
       (table_collection (fst (load_excel path self)))).
Proof.
  assert (G : forall (A : Type) (listing : result (list A)) name_of read,
    fst (mbind (assign (fun s => set_location s (Some path)))
           (fun _ => mbind (lift listing)
                       (fun l => load_each (A:=A) name_of read l)) self)
    = set_table_collection (set_location self (Some path))
        (table_collection
           (fst (mbind (assign (fun s => set_location s (Some path)))
                   (fun _ => mbind (lift listing)
                               (fun l => load_each name_of read l)) self)))).
  { intros A listing name_of read. unfold mbind at 1 3. unfold assign. cbn.
    unfold mbind, lift. destruct listing as [l |]; cbn.
    - apply load_each_frame.
    - reflexivity. }
  split; split.
  - unfold load_csv. rewrite G. reflexivity.
  - unfold load_csv. apply G.
  - unfold load_excel. rewrite G. reflexivity.
  - unfold load_excel. apply G.
Qed.
End Load.

Import Demo.

Lemma load_csv_returns_witness :
  exists files,
    listdir (Files:=DemoFiles.files) "scenarios/berlin" = Ok files /\
    In "volatile source.csv" files /\
    PyDict.lookup
      (table_collection
         (fst (load_csv (D:=DemoFiles.files) "scenarios/berlin"
                 (scenario_with_tables [("demand", twice_a); ("costs", gaps)]))))
      "costs"
    = Some gaps.
Proof.
  destruct (load_csv (D:=DemoFiles.files) "scenarios/berlin"
              (scenario_with_tables [("demand", twice_a); ("costs", gaps)]))
    as [s' r] eqn:E.
  assert (Hr : r = Ok tt).
  { apply (f_equal snd) in E. vm_compute in E. now subst r. }
  subst r.
  destruct (load_csv_returns (D:=DemoFiles.files) _ _ s' E)
    as (files & Hl & _ & _ & Hother).
  exists files. split; [exact Hl |].
  vm_compute in Hl. injection Hl as <-.
  split; [simpl; auto |].
  simpl fst. rewrite (Hother "costs"); [reflexivity |].
  simpl. intros [H | [H | [H | []]]]; discriminate H.
Defined.

Lemma load_excel_returns_witness :
  PyDict.lookup
    (table_collection
       (fst (load_excel (D:=DemoFiles.files) "scenarios/berlin.xls"
               (scenario_with_tables [("demand", twice_a)]))))
    "demand"
  = Some gaps.
Proof.
  destruct (load_excel (D:=DemoFiles.files) "scenarios/berlin.xls"
              (scenario_with_tables [("demand", twice_a)]))
    as [s' r] eqn:E.
  assert (Hr : r = Ok tt).
  { apply (f_equal snd) in E. vm_compute in E. now subst r. }
  subst r.
  destruct (load_excel_returns (D:=DemoFiles.files) _ _ s' E)
    as (sheets & Hl & _ & Hread & _).
  vm_compute in Hl. injection Hl as <-.
  destruct (Hread "demand" (or_introl eq_refl)) as (df & Hdf & Hlook).
  vm_compute in Hdf. injection Hdf as <-. exact Hlook.
Defined.
End LoadFacts.

(** ** Saving the tables to a workbook *)
Module SaveFacts.
Import Scenario ScenarioFiles Paths PathsFacts.

Section Save.
Context {F : Framework} {T : Tables} {X : Externals} {D : Files}.
Implicit Types (self : Scenario.t)
  (items : list (string * Frame.DataFrame Label Value)).

Lemma insert_item_perm item items :
  Permutation (insert_item item items) (item :: items).
Proof.
  induction items as [| item' rest IH]; simpl; [reflexivity |].
  destruct (String.leb (fst item) (fst item')); [reflexivity |].
  rewrite IH. apply perm_swap.
Qed.

Lemma sorted_perm items : Permutation (sorted items) items.
Proof.
  induction items as [| item rest IH]; simpl; [reflexivity |].
  rewrite insert_item_perm. now constructor.
Qed.

Lemma insert_item_sorted item items :
  Sorted by_name items -> Sorted by_name (insert_item item items).
Proof.
  induction items as [| item' rest IH]; simpl; intros Hs.
  - repeat constructor.
  - destruct (String.leb (fst item) (fst item')) eqn:E.
    + constructor; [exact Hs | constructor; exact E].
    + inversion Hs as [| ? ? Hs' Hhd]; subst.
      constructor; [now apply IH |].
      assert (Hle : by_name item' item).
      { unfold by_name. destruct (String.leb_total (fst item) (fst item'));
          [congruence | assumption]. }
      destruct rest as [| item2 rest]; simpl.
      * constructor. exact Hle.
      * destruct (String.leb (fst item) (fst item2)).
        -- constructor. exact Hle.
        -- constructor. now inversion Hhd.
Qed.

Lemma sorted_sorted items : Sorted by_name (sorted items).
Proof.
  induction items as [| item rest IH]; simpl; [constructor |].
  now apply insert_item_sorted.
Qed.

Lemma sheets_written_app (l1 l2 : list call) :
  sheets_written (l1 ++ l2) = (sheets_written l1 ++ sheets_written l2)%list.
Proof.
  induction l1 as [| c l1 IH]; simpl; [reflexivity |].
  destruct c; simpl; now rewrite IH.
Qed.

(** The loop writes the items it is given, one sheet each, in their
    order. *)
Lemma write_sheets_returns (filename : string) items (log : list call) :
  write_sheets filename items = (log, Ok tt) -> sheets_written log = items.
Proof.
  revert log. induction items as [| [sheet df] rest IH]; intros log; simpl.
  - intros H. now injection H as <-.
  - unfold tr_bind, tr_call.
    destruct (frame_to_excel df filename sheet); [| discriminate].
    destruct (write_sheets filename rest) as [log' [[] | e]] eqn:E;
      intros H; [| discriminate H].
    injection H as <-. simpl. f_equal. now apply IH.
Qed.

(** X27.  When [to_excel] returns, it has written exactly one sheet for
    each table of the collection, and the sheets were written in ascending
    order of the table names, whatever the order in the collection. *)
Theorem to_excel_sheets (filename : string) self (log : list call) :
  to_excel filename self = (log, Ok tt) ->
  Permutation (sheets_written log) (PyDict.items (table_collection self)) /\
  Sorted by_name (sheets_written log).
Proof.
  unfold to_excel. intros H.
  assert (Hs : sheets_written log
               = sorted (PyDict.items (table_collection self))).
  { revert H. unfold tr_bind at 1.
    destruct (if isdir (dirname filename) then _ else _) as [log0 [[] | e0]] eqn:E0;
      [| discriminate].
    assert (H0 : sheets_written log0 = []).
    { destruct (isdir (dirname filename)).
      - now injection E0 as <-.
      - unfold tr_call in E0. now injection E0 as <-. }
    unfold tr_bind at 1. unfold tr_call at 1.
    destruct (excel_writer filename); [| discriminate].
    unfold tr_bind at 1.
    destruct (write_sheets filename _) as [log1 [[] | e1]] eqn:E1;
      [| discriminate].
    apply write_sheets_returns in E1.
    unfold tr_call. destruct (writer_save filename) as [[] |]; intros H;
      [| discriminate H].
    injection H as <-.
    rewrite sheets_written_app, H0. simpl.
    rewrite sheets_written_app, E1. simpl. now rewrite app_nil_r. }
  rewrite Hs. split; [apply sorted_perm | apply sorted_sorted].
Qed.

(** X28.  For a file name without a directory part, [to_excel] looks for
    the directory with the empty name; a system on which that is not a
    directory and cannot be made -- [os.makedirs('')] raises -- gets no
    workbook: [to_excel] raises what [makedirs] raised, before the
    writer is opened. *)
Theorem to_excel_bare_name (filename : string) self (x : exn) :
  has_sep filename = false ->
  isdir "" = false ->
  makedirs "" = Raise x ->
  to_excel filename self = ([Makedirs ""], Raise x).
Proof.
  intros Hp Hd Hm. unfold to_excel.
  destruct (filename_edges filename) as [Hbare _].
  destruct (Hbare Hp) as [-> _].
  rewrite Hd. unfold tr_bind, tr_call. now rewrite Hm.
Qed.
End Save.

Import Demo.

Lemma to_excel_sheets_witness :
  sheets_written
    (fst (to_excel (D:=DemoFiles.files) "out/berlin.xls"
            (scenario_with_tables
               [("volatile source", twice_a); ("demand", gaps)])))
  = [("demand", gaps); ("volatile source", twice_a)].
Proof.
  destruct (to_excel (D:=DemoFiles.files) "out/berlin.xls"
              (scenario_with_tables
                 [("volatile source", twice_a); ("demand", gaps)]))
    as [log r] eqn:E.
  assert (Hr : r = Ok tt).
  { apply (f_equal snd) in E. vm_compute in E. now subst r. }
  subst r.
  destruct (to_excel_sheets (D:=DemoFiles.files) _ _ log E) as [_ Hsorted].
  apply (f_equal fst) in E. vm_compute in E. subst log. reflexivity.
Defined.

Lemma to_excel_bare_name_witness :
  to_excel (D:=DemoFiles.files) "berlin.xls"
    (scenario_with_tables [("demand", gaps)])
  = ([Makedirs ""],
     Raise (OtherError "[Errno 2] No such file or directory: ''")).
Proof.
  apply (to_excel_bare_name (D:=DemoFiles.files) "berlin.xls"
           (scenario_with_tables [("demand", gaps)])); reflexivity.
Defined.
End SaveFacts.

(** ** Plotting *)
Module PlotFacts.
Import Plot PyDictFacts.

Section Plot.
Context {F : Framework} {T : Tables} {P : Plotting}.

Lemma bind_keywords_rejects (kwargs : PyDict.t Opaque) (key : string) :
  In key (PyDict.keys kwargs) -> is_keyword key = false ->
  exists msg, bind_keywords kwargs = Raise (TypeError msg).
Proof.
  intros Hin Hk. unfold bind_keywords.
  destruct (find (fun k => negb (is_keyword k)) (PyDict.keys kwargs))
    as [bad |] eqn:E.
  - destruct (String.eqb bad "grph"); eexists; reflexivity.
  - apply (find_none _ _ E) in Hin. rewrite Hk in Hin. discriminate Hin.
Qed.

(** X29.  [plot_nodes] hands all its keyword arguments on to [draw_graph],
    [remove_nodes_with_substrings] among them, which [draw_graph] does not
    take.  Called with [show=True] and that argument, [plot_nodes] creates
    the graph and then raises a [TypeError]; nothing is drawn and no graph
    is returned. *)
Theorem plot_nodes_show_and_remove (filename : option string)
    (kwargs : PyDict.t Opaque) (self : Scenario.t) (v : Opaque) (g : Graph) :
  PyDict.lookup kwargs "remove_nodes_with_substrings" = Some v ->
  create_nx_graph (Scenario.es self) filename (Some v) = Ok g ->
  exists msg,
    plot_nodes (PyBool true) filename kwargs self = Raise (TypeError msg).
Proof.
  intros Hv Hg. unfold plot_nodes. rewrite Hv, Hg. simpl.
  assert (Hin : In "remove_nodes_with_substrings" (PyDict.keys kwargs)).
  { destruct (in_dec string_dec "remove_nodes_with_substrings"
                (PyDict.keys kwargs)) as [Hin | Hnot]; [exact Hin |].
    apply lookup_None_keys in Hnot. rewrite Hnot in Hv. discriminate Hv. }
  destruct (bind_keywords_rejects kwargs _ Hin eq_refl) as [msg Hmsg].
  exists msg. unfold draw_graph. now rewrite Hmsg.
Qed.

(** [plot_nodes] draws only when [show] is the object [True]: with
    any other value -- [None], [1], a string -- it returns the graph that
    [create_nx_graph] made and [draw_graph] is not called, so keyword
    arguments that [draw_graph] would refuse pass unnoticed. *)
Theorem plot_nodes_without_show (show : pyval) (filename : option string)
    (kwargs : PyDict.t Opaque) (self : Scenario.t) :
  show <> PyBool true ->
  plot_nodes show filename kwargs self
  = create_nx_graph (Scenario.es self) filename
      (PyDict.lookup kwargs "remove_nodes_with_substrings").
Proof.
  intros Hs. apply InitialiseFacts.is_True_false in Hs.
  unfold plot_nodes. rewrite Hs.
  destruct (create_nx_graph _ _ _); reflexivity.
Qed.
End Plot.

Import Demo.

Lemma plot_nodes_show_and_remove_witness :
  exists msg,
    plot_nodes (P:=DemoPlot.plotting) (PyBool true) None
      [("layout", 1%nat); ("remove_nodes_with_substrings", 2%nat)] ready
    = Raise (TypeError msg).
Proof.
  apply (plot_nodes_show_and_remove (P:=DemoPlot.plotting) None
           [("layout", 1%nat); ("remove_nodes_with_substrings", 2%nat)]
           ready 2%nat 0%nat); reflexivity.
Defined.

Lemma plot_nodes_without_show_witness :
  plot_nodes (P:=DemoPlot.plotting) (PyInt 1) None
    [("colour", 1%nat)] ready
  = Ok 0%nat.
Proof.
  rewrite (plot_nodes_without_show (P:=DemoPlot.plotting) (PyInt 1) None
             [("colour", 1%nat)] ready); [reflexivity | discriminate].
Defined.

(** With [show=True] and only keywords that [draw_graph] takes, the graph
    is drawn and returned. *)
Example plot_nodes_drawn :
  plot_nodes (P:=DemoPlot.plotting) (PyBool true) None
    [("layout", 1%nat); ("node_size", 2%nat)] ready
  = Ok 0%nat.
Proof. reflexivity. Qed.
End PlotFacts.
